(** * Neuro-Galaxy backend: the note-to-galaxy pipeline

    A shallow embedding of [backend/services/galaxy_brain.py] (class
    [GalaxyRenderer]) and of the note storage endpoints of
    [backend/api/routes.py].

    Python values are modelled as follows.
    - [str] is a sequence of Unicode code points ([list N]).
    - [int] is [Z]; floats are an abstract type [Float], never computed on.
    - [Dict[int, str]] is [gmap Z str]; the dictionaries built here are
      filled in ascending key order, which is also gmap's canonical order.
    - Exceptions are values of [exn]; a computation that may raise returns
      a [result].
    - Calls that leave the repository (sentence-transformers, scikit-learn,
      umap-learn, the Groq client, [random], the file system) are nodes of
      a program tree [prog]; [run] interprets them against an environment
      [Env] and records them in a trace.  Console output ([print],
      [traceback.print_exc]) is not modelled. *)

From Stdlib Require Import ZArith NArith List String Ascii DecimalString.
From stdpp Require Import base option list sorting gmap.

Set Default Proof Using "Type".
Local Open Scope Z_scope.

(** ** Python strings *)

Module PyStr.

Definition str := list N.

Definition lit (s : string) : str :=
  map N_of_ascii (list_ascii_of_string s).
Arguments lit s%_string.

Definition LF : N := 10%N.
Definition SPACE : N := 32%N.

(** [str.isspace] on one code point: the white-space table of CPython. *)
Definition isspace (c : N) : bool :=
  ((9 <=? c) && (c <=? 13) || (28 <=? c) && (c <=? 32)
   || (c =? 133) || (c =? 160) || (c =? 5760)
   || (8192 <=? c) && (c <=? 8202)
   || (c =? 8232) || (c =? 8233) || (c =? 8239) || (c =? 8287)
   || (c =? 12288))%N.

Fixpoint lstrip (s : str) : str :=
  match s with
  | c :: s' => if isspace c then lstrip s' else s
  | [] => []
  end.

Definition rstrip (s : str) : str := rev (lstrip (rev s)).

(** [s.strip()] *)
Definition strip (s : str) : str := rstrip (lstrip s).

(** [s.split('\n')[0]]: [split] with a separator always returns at least
    one piece, so the index never fails. *)
Fixpoint first_line (s : str) : str :=
  match s with
  | c :: s' => if (c =? LF)%N then [] else c :: first_line s'
  | [] => []
  end.

(** [s.split()]: maximal runs of non-white-space characters.  [cur] is
    the token being read, in reverse. *)
Fixpoint split_from (cur : str) (s : str) : list str :=
  match s with
  | c :: s' =>
      if isspace c
      then match cur with
           | [] => split_from [] s'
           | _ :: _ => rev cur :: split_from [] s'
           end
      else split_from (c :: cur) s'
  | [] => match cur with [] => [] | _ :: _ => [rev cur] end
  end.

Definition split (s : str) : list str := split_from [] s.

(** [sep.join(parts)] *)
Fixpoint join (sep : str) (parts : list str) : str :=
  match parts with
  | [] => []
  | [p] => p
  | p :: ps => p ++ sep ++ join sep ps
  end.

(** [str(z)] for an [int]. *)
Definition of_int (z : Z) : str := lit (NilZero.string_of_int (Z.to_int z)).

End PyStr.
Import PyStr.

(** ** Exceptions

    The values of [exn] stand for instances of subclasses of [Exception],
    the ones that [except Exception] catches. *)

Inductive exn : Type :=
| ValueError (msg : str)
| IndexError (msg : str)
| LibraryError (msg : str)
    (** any exception raised inside an external library or service *)
| HTTPException (status_code : Z) (detail : str).

(** [str(e)] *)
Definition str_of_exn (e : exn) : str :=
  match e with
  | ValueError m | IndexError m | LibraryError m => m
  | HTTPException c d => of_int c ++ lit ": " ++ d
  end.

Inductive result (A : Type) : Type :=
| Ok (a : A)
| Raise (e : exn).
Arguments Ok {A} a.
Arguments Raise {A} e.

Definition is_ok {A} (r : result A) : bool :=
  match r with Ok _ => true | Raise _ => false end.

(** [l[i]] on a list or array row: [IndexError] when out of range.  The
    indices used by the code are never negative. *)
Definition index {A} (l : list A) (i : nat) : result A :=
  match l !! i with
  | Some a => Ok a
  | None => Raise (IndexError (lit "index out of range"))
  end.

(** ** Objects of the external libraries *)

(** A float literal of the source, kept as written: [0.3] is
    [{| digits := 3; places := 1 |}]. *)
Record float_literal := { digits : Z; places : nat }.

(** [KMeans(n_clusters=..., random_state=..., n_init=...)] *)
Record KMeans_params := {
  km_n_clusters : Z;
  km_random_state : Z;
  km_n_init : Z
}.

(** [umap.UMAP(n_components=..., n_neighbors=..., min_dist=...,
    random_state=...)] *)
Record UMAP_params := {
  um_n_components : Z;
  um_n_neighbors : Z;
  um_min_dist : float_literal;
  um_random_state : Z
}.

(** The keyword arguments of [chat.completions.create]; [messages] is a
    list of (role, content) pairs. *)
Record chat_request := {
  messages : list (str * str);
  chat_model : str;
  temperature : float_literal;
  max_tokens : Z
}.

(** What [json.load] finds in the notes file: a JSON object, with or
    without a ["notes"] entry.  An entry written by [save_notes] is a list
    of strings. *)
Record json_doc := { doc_notes : option (list str) }.

(** The notes file on disk.  [Garbled] stands for any content on which
    [json.load] or [data.get] raises. *)
Inductive notes_file : Type :=
| Absent
| Holds (doc : json_doc)
| Garbled.

(** How [open(NOTES_FILE, "w")] followed by [json.dump] can end: the file
    is written; [open] is refused and the file keeps its content; or the
    dump stops half-way and leaves a truncated file. *)
Inductive write_outcome : Type :=
| Written
| Refused (e : exn)
| Torn (e : exn).

Section Pipeline.

(** The loaded sentence-transformer model, the Groq client and the float
    type are opaque. *)
Context {Model Client Float : Type}.

(** An estimator object: its parameters, and what a successful fit left
    in it ([labels_], [embedding_]). *)
Record KMeans := {
  km_params : KMeans_params;
  km_labels_ : option (list Z)
}.

Record UMAP := {
  um_params : UMAP_params;
  um_embedding_ : option (list (list Float))
}.

(** ** Calls that leave the repository

    [call X] is a call whose answer has type [X]; a call that can raise
    answers with a [result]. *)
Inductive call : Type -> Type :=
| SentenceTransformer (model_name : str) : call (result Model)
| Getenv (name : str) : call (option str)
| Groq (api_key : str) : call (result Client)
| Encode (m : Model) (sentences : list str)
    : call (result (list (list Float)))
| KMeansFitPredict (p : KMeans_params) (X : list (list Float))
    : call (result (list Z))
| UMAPFitTransform (p : UMAP_params) (X : list (list Float))
    : call (result (list (list Float)))
| RandomSample (population : list str) (k : nat) : call (list str)
| ChatCompletionsCreate (client : Client) (req : chat_request)
    : call (result str)
    (** the answer is the text of [choices[0].message.content]; a failure
        of the request or of reaching that field is an exception *)
| NotesFileExists : call bool
| ReadNotesFile : call (result json_doc)
| MkdirDataDir : call (result unit)
| WriteNotesFile (notes : list str) : call (result unit).

(** A program: a tree of external calls ending in a value. *)
Inductive prog (R : Type) : Type :=
| Ret (r : R)
| Do {X : Type} (c : call X) (k : X -> prog R).
Arguments Ret {R} r.
Arguments Do {R X} c k.

Fixpoint pbind {A B} (p : prog A) (f : A -> prog B) : prog B :=
  match p with
  | Ret a => f a
  | Do c k => Do c (fun x => pbind (k x) f)
  end.

(** ** The environment and the interpreter *)

(** The pipeline libraries are functions of their configuration and
    input: the model is fixed once loaded, and scikit-learn and umap-learn
    are called with [random_state=42].  The language model, [random] and
    the disk answer from a world state that each call may change. *)
Record Env := {
  World : Type;
  load_model : str -> World -> result Model * World;
  environ : str -> World -> option str;
  new_client : str -> World -> result Client * World;
  model_encode : Model -> list str -> result (list (list Float));
  kmeans_fit : KMeans_params -> list (list Float) -> result (list Z);
  umap_fit : UMAP_params -> list (list Float) -> result (list (list Float));
  random_sample : list str -> nat -> World -> list str * World;
  chat_create : Client -> chat_request -> World -> result str * World;
  mkdir : World -> result unit * World;
  open_write : World -> write_outcome * World
}.

(** What the interpreter threads: the notes file and the outside world. *)
Record Sys (env : Env) := {
  fs : notes_file;
  world : World env
}.
Arguments fs {env} s.
Arguments world {env} s.

(** [KMeans.fit_predict]: scikit-learn checks the sample count against
    [n_clusters] before it runs Lloyd's algorithm, and raises
    [ValueError("n_samples=N should be >= n_clusters=K.")].  What the fit
    does otherwise is left to the environment. *)
Definition sklearn_fit_predict (env : Env) (p : KMeans_params)
    (X : list (list Float)) : result (list Z) :=
  if Z.of_nat (length X) <? km_n_clusters p
  then Raise (ValueError (lit "n_samples=" ++ of_int (Z.of_nat (length X))
                          ++ lit " should be >= n_clusters="
                          ++ of_int (km_n_clusters p) ++ lit "."))
  else kmeans_fit env p X.

Definition handle (env : Env) {X} (c : call X) (s : Sys env) : X * Sys env :=
  let w := world s in
  let at_world {Y} (yw : Y * World env) : Y * Sys env :=
    (yw.1, {| fs := fs s; world := yw.2 |}) in
  match c in call X return X * Sys env with
  | SentenceTransformer name => at_world (load_model env name w)
  | Getenv name => (environ env name w, s)
  | Groq key => at_world (new_client env key w)
  | Encode m sentences => (model_encode env m sentences, s)
  | KMeansFitPredict p X => (sklearn_fit_predict env p X, s)
  | UMAPFitTransform p X => (umap_fit env p X, s)
  | RandomSample population k => at_world (random_sample env population k w)
  | ChatCompletionsCreate client req => at_world (chat_create env client req w)
  | NotesFileExists =>
      (match fs s with Absent => false | _ => true end, s)
  | ReadNotesFile =>
      (match fs s with
       | Holds doc => Ok doc
       | Garbled => Raise (LibraryError (lit "invalid notes file"))
       | Absent => Raise (LibraryError (lit "No such file or directory"))
       end, s)
  | MkdirDataDir => at_world (mkdir env w)
  | WriteNotesFile notes =>
      let (o, w') := open_write env w in
      match o with
      | Written =>
          (Ok (), {| fs := Holds {| doc_notes := Some notes |}; world := w' |})
      | Refused e => (Raise e, {| fs := fs s; world := w' |})
      | Torn e => (Raise e, {| fs := Garbled; world := w' |})
      end
  end.

(** One entry of the trace: a call and the answer it got. *)
Inductive event : Type :=
| Event {X : Type} (c : call X) (answer : X).

(** [run env p s]: the value of [p], the final system state and the calls
    made, oldest first. *)
Fixpoint run (env : Env) {R} (p : prog R) (s : Sys env)
    : R * Sys env * list event :=
  match p with
  | Ret r => (r, s, [])
  | Do c k =>
      let (x, s1) := handle env c s in
      let '(r, s2, t) := run env (k x) s1 in
      (r, s2, Event c x :: t)
  end.

(** ** Methods: state of [self], exceptions and external calls

    A method body is run on the renderer instance and yields a program
    whose value is what the method returns or raises, paired with the
    instance as the method left it.  Field assignments made before an
    exception stay. *)

Record GalaxyRenderer := {
  model : Model;
  n_clusters : Z;
  kmeans : option KMeans;
  umap_reducer : option UMAP;
  groq_client : option Client
}.

Definition M (A : Type) : Type :=
  GalaxyRenderer -> prog (result A * GalaxyRenderer).

Definition ret {A} (a : A) : M A := fun self => Ret (Ok a, self).

Definition bind {A B} (m : M A) (f : A -> M B) : M B :=
  fun self =>
    pbind (m self) (fun '(r, self1) =>
      match r with
      | Ok a => f a self1
      | Raise e => Ret (Raise e, self1)
      end).

#[local] Instance M_ret : MRet M := @ret.
#[local] Instance M_bind : MBind M := fun A B f m => bind m f.

Definition raise {A} (e : exn) : M A := fun self => Ret (Raise e, self).

(** A pure expression that may raise. *)
Definition lift {A} (r : result A) : M A := fun self => Ret (r, self).

(** An external call that cannot raise. *)
Definition ask {X} (c : call X) : M X :=
  fun self => Do c (fun x => Ret (Ok x, self)).

(** An external call whose exception propagates. *)
Definition invoke {X} (c : call (result X)) : M X :=
  fun self => Do c (fun r => Ret (r, self)).

(** [try: body  except Exception as e: handler e] *)
Definition try_except {A} (body : M A) (handler : exn -> M A) : M A :=
  fun self =>
    pbind (body self) (fun '(r, self1) =>
      match r with
      | Ok a => Ret (Ok a, self1)
      | Raise e => handler e self1
      end).

Definition get_self : M GalaxyRenderer := fun self => Ret (Ok self, self).

(** [self.kmeans = v] and [self.umap_reducer = v] *)
Definition with_kmeans (v : option KMeans) (self : GalaxyRenderer)
    : GalaxyRenderer :=
  {| model := model self; n_clusters := n_clusters self; kmeans := v;
     umap_reducer := umap_reducer self; groq_client := groq_client self |}.

Definition with_umap_reducer (v : option UMAP) (self : GalaxyRenderer)
    : GalaxyRenderer :=
  {| model := model self; n_clusters := n_clusters self;
     kmeans := kmeans self; umap_reducer := v;
     groq_client := groq_client self |}.

Definition set_kmeans (v : option KMeans) : M unit :=
  fun self => Ret (Ok (), with_kmeans v self).

Definition set_umap_reducer (v : option UMAP) : M unit :=
  fun self => Ret (Ok (), with_umap_reducer v self).

#[local] Instance result_ret : MRet result := @Ok.
#[local] Instance result_bind : MBind result := fun A B f r =>
  match r with Ok a => f a | Raise e => Raise e end.

(** [for a in l: acc = body acc a] *)
Fixpoint for_each {A S} (l : list A) (body : S -> A -> M S) (acc : S) : M S :=
  match l with
  | [] => ret acc
  | a :: l' => acc' ← body acc a; for_each l' body acc'
  end.

(** ** [GalaxyRenderer] *)

(** [GalaxyRenderer.__init__].  An empty [GROQ_API_KEY] is falsy, like a
    missing one; a failure of the [Groq] constructor is caught and leaves
    [groq_client] at [None]. *)
Definition __init__ (model_name : str) (n_clusters : Z)
    : prog (result GalaxyRenderer) :=
  Do (SentenceTransformer model_name) (fun loaded =>
    match loaded with
    | Raise e => Ret (Raise e)
    | Ok m =>
        let new client :=
          {| model := m; n_clusters := n_clusters; kmeans := None;
             umap_reducer := None; groq_client := client |} in
        Do (Getenv (lit "GROQ_API_KEY")) (fun groq_api_key =>
          match groq_api_key with
          | Some (c :: key) =>
              Do (Groq (c :: key)) (fun made =>
                match made with
                | Ok client => Ret (Ok (new (Some client)))
                | Raise _ => Ret (Ok (new None))
                end)
          | Some [] | None => Ret (Ok (new None))
          end)
    end).

(** The defaults of the constructor: [GalaxyRenderer()]. *)
Definition default_model_name : str := lit "all-MiniLM-L6-v2".
Definition default_n_clusters : Z := 5.

(** [f"Category {cluster_id}"] *)
Definition generic_name (cluster_id : Z) : str :=
  lit "Category " ++ of_int cluster_id.

(** [sorted(set(cluster_labels))] *)
Definition unique_clusters (cluster_labels : list Z) : list Z :=
  merge_sort Z.le (remove_dups cluster_labels).

(** [[notes[i] for i in range(len(notes)) if cluster_labels[i] ==
    cluster_id]], from index [i] on. *)
Fixpoint cluster_notes_from (cluster_labels : list Z) (cluster_id : Z)
    (i : nat) (notes : list str) : result (list str) :=
  match notes with
  | [] => Ok []
  | note :: rest =>
      l ← index cluster_labels i;
      more ← cluster_notes_from cluster_labels cluster_id (S i) rest;
      Ok (if l =? cluster_id then note :: more else more)
  end.

(** The prompt sent for one cluster. *)
Definition make_prompt (sample_notes : list str) : str :=
  let notes_list := join [LF] (map (fun note => lit "- " ++ note) sample_notes) in
  lit "Generate a 2-word topic title for these notes:" ++ [LF]
  ++ notes_list ++ [LF; LF] ++ lit "Return ONLY the 2-word title.".

(** Lines 94-97: from the content of the reply to the category name. *)
Definition title_of_content (content : str) : result str :=
  let category_name := strip (first_line (strip content)) in
  let words := take 2 (split category_name) in
  if Nat.eqb (length words) 2
  then Ok (join [SPACE] words)
  else index (split category_name) 0.

(** The keyword arguments of the request, lines 81-91. *)
Definition title_request (prompt : str) : chat_request :=
  {| messages := [(lit "user", prompt)];
     chat_model := lit "llama-3.1-8b-instant";
     temperature := {| digits := 7; places := 1 |};
     max_tokens := 20 |}.

(** The [try] block of one iteration: the value stored under
    [cluster_id]. *)
Definition request_title (prompt : str) : M str :=
  self ← get_self;
  match groq_client self with
  | None => raise (LibraryError (lit "'NoneType' object has no attribute 'chat'"))
  | Some client =>
      content ← invoke (ChatCompletionsCreate client (title_request prompt));
      lift (title_of_content content)
  end.

(** One iteration of the loop of [_name_clusters]. *)
Definition name_cluster (cluster_labels : list Z) (notes : list str)
    (cluster_names : gmap Z str) (cluster_id : Z) : M (gmap Z str) :=
  cluster_notes ← lift (cluster_notes_from cluster_labels cluster_id 0 notes);
  let sample_size := Nat.min 3 (length cluster_notes) in
  sample_notes ←
    (if Nat.ltb sample_size (length cluster_notes)
     then ask (RandomSample cluster_notes sample_size)
     else ret cluster_notes);
  let prompt := make_prompt sample_notes in
  name ← try_except (request_title prompt)
            (fun _ => ret (generic_name cluster_id));
  ret (<[cluster_id := name]> cluster_names).

Definition _name_clusters (cluster_labels : list Z) (notes : list str)
    : M (gmap Z str) :=
  self ← get_self;
  match groq_client self with
  | None =>
      ret (list_to_map
             (map (fun cluster_id => (cluster_id, generic_name cluster_id))
                  (unique_clusters cluster_labels)))
  | Some _ =>
      for_each (unique_clusters cluster_labels)
        (name_cluster cluster_labels notes) ∅
  end.

(** One record of the ["nodes"] list. *)
Record Node := {
  id : Z;
  label : str;
  x : Float;
  y : Float;
  z : Float;
  category : Z;
  cluster_label : str
}.

(** What [process_notes] returns. *)
Record Galaxy := {
  nodes : list Node;
  cluster_names : gmap Z str
}.

(** The loop of lines 145-156, from index [i] on. *)
Fixpoint nodes_from (cluster_labels : list Z) (coords_3d : list (list Float))
    (names : gmap Z str) (i : nat) (notes : list str) : result (list Node) :=
  match notes with
  | [] => Ok []
  | note :: rest =>
      cluster_id ← index cluster_labels i;
      cx ← (row ← index coords_3d i; index row 0);
      cy ← (row ← index coords_3d i; index row 1);
      cz ← (row ← index coords_3d i; index row 2);
      let node :=
        {| id := Z.of_nat i; label := note; x := cx; y := cy; z := cz;
           category := cluster_id;
           cluster_label := default (generic_name cluster_id)
                                    (names !! cluster_id) |} in
      more ← nodes_from cluster_labels coords_3d names (S i) rest;
      Ok (node :: more)
  end.

(** [{int(k): str(v) for k, v in cluster_names.items()}]; the keys are
    already [int] and the values [str], so both conversions return their
    argument. *)
Definition int_ (k : Z) : Z := k.
Definition str_ (v : str) : str := v.
Definition clean_names (names : gmap Z str) : gmap Z str :=
  list_to_map (map (fun kv => (int_ kv.1, str_ kv.2)) (map_to_list names)).

(** The estimator configurations of lines 124 and 131-137. *)
Definition kmeans_config (self : GalaxyRenderer) : KMeans_params :=
  {| km_n_clusters := n_clusters self; km_random_state := 42;
     km_n_init := 10 |}.

Definition umap_config (notes : list str) : UMAP_params :=
  let n_neighbors_val :=
    if Nat.ltb 1 (length notes)
    then Z.min 10 (Z.of_nat (length notes) - 1) else 1 in
  {| um_n_components := 3; um_n_neighbors := n_neighbors_val;
     um_min_dist := {| digits := 3; places := 1 |};
     um_random_state := 42 |}.

Definition process_notes (notes : list str) : M Galaxy :=
  match notes with
  | [] => ret {| nodes := []; cluster_names := ∅ |}
  | _ :: _ =>
      self ← get_self;
      embeddings ← invoke (Encode (model self) notes);
      let params := kmeans_config self in
      _ ← set_kmeans (Some {| km_params := params; km_labels_ := None |});
      cluster_labels_np ← invoke (KMeansFitPredict params embeddings);
      _ ← set_kmeans (Some {| km_params := params;
                              km_labels_ := Some cluster_labels_np |});
      let cluster_labels := map int_ cluster_labels_np in
      let uparams := umap_config notes in
      _ ← set_umap_reducer (Some {| um_params := uparams;
                                    um_embedding_ := None |});
      coords_3d ← invoke (UMAPFitTransform uparams embeddings);
      _ ← set_umap_reducer (Some {| um_params := uparams;
                                    um_embedding_ := Some coords_3d |});
      names ← _name_clusters cluster_labels notes;
      nodes ← lift (nodes_from cluster_labels coords_3d names 0 notes);
      ret {| nodes := nodes; cluster_names := clean_names names |}
  end.

(** ** The storage endpoints of [api/routes.py]

    [galaxy_renderer] is a module-level instance shared by all requests:
    it is the state the endpoint methods run on. *)

Definition load_notes : M (list str) :=
  present ← ask NotesFileExists;
  if negb present then ret []
  else
    try_except
      (data ← invoke ReadNotesFile;
       ret (default [] (doc_notes data)))
      (fun e => raise (HTTPException 500
                         (lit "Error loading notes: " ++ str_of_exn e))).

Definition save_notes (notes : list str) : M unit :=
  _ ← invoke MkdirDataDir;
  try_except
    (invoke (WriteNotesFile notes))
    (fun e => raise (HTTPException 500
                       (lit "Error saving notes: " ++ str_of_exn e))).

(** The body returned by [POST /notes]. *)
Record AddNotesResponse := {
  message : str;
  total_notes : Z;
  response_nodes : list Node;
  response_cluster_names : gmap Z str
}.

Definition add_notes (request_notes : list str) : M AddNotesResponse :=
  try_except
    (loaded ← load_notes;
     let existing_notes := loaded ++ request_notes in
     _ ← save_notes existing_notes;
     result ← process_notes existing_notes;
     ret {| message := lit "Added "
                       ++ of_int (Z.of_nat (length request_notes))
                       ++ lit " note(s)";
            total_notes := Z.of_nat (length existing_notes);
            response_nodes := nodes result;
            response_cluster_names := cluster_names result |})
    (fun e => raise (HTTPException 500
                       (lit "Error adding notes: " ++ str_of_exn e))).

End Pipeline.

Arguments Ret {Model Client Float R} r.
Arguments Do {Model Client Float R X} c k.
Arguments fs {Model Client Float env} s.
Arguments world {Model Client Float env} s.
Arguments Env : clear implicits.
Arguments GalaxyRenderer : clear implicits.
Arguments Node : clear implicits.
Arguments Galaxy : clear implicits.

(** ** The processing endpoints of [api/routes.py]

    [POST /process] bears the name of the method it calls, so the two
    endpoints live in a module of their own. *)

Module Routes.
Section Endpoints.

Context {Model Client Float : Type}.

#[local] Existing Instance M_ret.
#[local] Existing Instance M_bind.

(** [GET /nodes]: [load_notes] is called outside the [try]. *)
Definition get_nodes : @M Model Client Float (Galaxy Float) :=
  notes ← load_notes;
  match notes with
  | [] => ret {| nodes := []; cluster_names := ∅ |}
  | _ :: _ =>
      try_except
        (result ← process_notes notes;
         ret {| nodes := nodes result;
                cluster_names := cluster_names result |})
        (fun e => raise (HTTPException 500
                           (lit "Error processing nodes: " ++ str_of_exn e)))
  end.

(** [POST /process] *)
Definition process_notes (request_notes : list str)
    : @M Model Client Float (Galaxy Float) :=
  try_except
    (result ← process_notes request_notes;
     ret {| nodes := nodes result; cluster_names := cluster_names result |})
    (fun e => raise (HTTPException 500
                       (lit "Error processing notes: " ++ str_of_exn e))).

End Endpoints.
End Routes.

(** ** Derived notions used to state the properties *)

(** The answers of the language model found in a trace, oldest first. *)
Definition chat_answer {Model Client Float} (e : @event Model Client Float)
    : option (result str) :=
  match e with
  | Event c a =>
      match c in call X return X -> option (result str) with
      | ChatCompletionsCreate _ _ => fun a => Some a
      | _ => fun _ => None
      end a
  end.

Definition chat_answers {Model Client Float}
    (t : list (@event Model Client Float)) : list (result str) :=
  omap chat_answer t.

(** The name that the [try]/[except] of [_name_clusters] stores for a
    cluster whose request got answer [a]. *)
Definition name_of_answer (cluster_id : Z) (a : result str) : str :=
  match a with
  | Ok content =>
      match title_of_content content with
      | Ok name => name
      | Raise _ => generic_name cluster_id
      end
  | Raise _ => generic_name cluster_id
  end.

(** The title as the specification words it: the first line of the
    reply, split on white space, cut to its first two tokens; two tokens
    are joined with one space, fewer are used as they are. *)
Definition title_as_specified (content : str) : str :=
  let tokens := take 2 (split (first_line content)) in
  if Nat.eqb (length tokens) 2 then join [SPACE] tokens else concat tokens.

(** The title as the code derives it: the reply is stripped before its
    first line is taken, and a line without any token gives the
    placeholder of the cluster. *)
Definition title_as_coded (cluster_id : Z) (content : str) : str :=
  match split (strip (first_line (strip content))) with
  | w1 :: w2 :: _ => w1 ++ [SPACE] ++ w2
  | [w] => w
  | [] => generic_name cluster_id
  end.

(** The notes that [load_notes] finds in a readable notes file. *)
Definition stored_notes (f : notes_file) : list str :=
  match f with
  | Holds doc => default [] (doc_notes doc)
  | Absent | Garbled => []
  end.

(** The cluster ids and the coordinates carried by the nodes. *)
Definition assignments {Float} (g : Galaxy Float) : list Z :=
  map category (nodes g).

Definition coordinates {Float} (g : Galaxy Float)
    : list (Float * Float * Float) :=
  map (fun n => (x n, y n, z n)) (nodes g).

(** The assignments and coordinates of a result, or its exception. *)
Definition layout_of {Float} (r : result (Galaxy Float))
    : result (list Z * list (Float * Float * Float)) :=
  match r with
  | Ok g => Ok (assignments g, coordinates g)
  | Raise e => Raise e
  end.

(** The same, computed from the embedder, the clusterer and the projector
    alone: no namer, no world, no stored handle. *)
Definition layout {Model Client Float} (env : Env Model Client Float)
    (self : GalaxyRenderer Model Client Float) (notes : list str)
    : result (list Z * list (Float * Float * Float)) :=
  match notes with
  | [] => Ok ([], [])
  | _ :: _ =>
      match model_encode env (model self) notes with
      | Raise e => Raise e
      | Ok embeddings =>
          match sklearn_fit_predict env (kmeans_config self) embeddings with
          | Raise e => Raise e
          | Ok labels =>
              match umap_fit env (umap_config notes) embeddings with
              | Raise e => Raise e
              | Ok coords_3d =>
                  layout_of
                    (match nodes_from (map int_ labels) coords_3d ∅ 0 notes with
                     | Ok ns => Ok {| nodes := ns; cluster_names := ∅ |}
                     | Raise e => Raise e
                     end)
              end
          end
      end
  end.

(** A node with its name looked up again in [names], as line 155 does. *)
Definition relabel {Float} (names : gmap Z str) (n : Node Float)
    : Node Float :=
  {| id := id n; label := label n; x := x n; y := y n; z := z n;
     category := category n;
     cluster_label :=
       default (generic_name (category n)) (names !! category n) |}.

(** The dictionary obtained by storing, in order, the name of each
    cluster of [cs] under the answer of the same rank. *)
Definition store_names (names : gmap Z str) (cs : list Z)
    (answers : list (result str)) : gmap Z str :=
  foldl (fun m ca => <[ca.1 := name_of_answer ca.1 ca.2]> m) names
        (zip cs answers).

(** The dictionary of the branch without client, lines 61-62. *)
Definition generic_names (cs : list Z) : gmap Z str :=
  list_to_map (map (fun cluster_id => (cluster_id, generic_name cluster_id)) cs).

(** The successive calls that the endpoints make on the one instance:
    each call starts from the instance as the previous one left it,
    whether that one returned or raised. *)
Fixpoint calls {Model Client Float} (requests : list (list str))
    (self : GalaxyRenderer Model Client Float)
    : prog (list (result (Galaxy Float)) * GalaxyRenderer Model Client Float) :=
  match requests with
  | [] => Ret ([], self)
  | notes :: rest =>
      pbind (process_notes notes self) (fun '(r, self1) =>
        pbind (calls rest self1) (fun '(rs, self2) => Ret (r :: rs, self2)))
  end.

(** What [os.getenv("GROQ_API_KEY")] answers inside [__init__], that is
    after the model has been loaded. *)
Definition credential_at_init {Model Client Float}
    (env : Env Model Client Float) (model_name : str) (s : Sys env)
    : option str :=
  environ env (lit "GROQ_API_KEY") (load_model env model_name (world s)).2.

(** Every name of the result is the placeholder of its cluster. *)
Definition all_generic {Float} (g : Galaxy Float) : Prop :=
  (forall c name, cluster_names g !! c = Some name -> name = generic_name c)
  /\ (forall n, n ∈ nodes g ->
        cluster_names g !! category n = Some (generic_name (category n))
        /\ cluster_label n = generic_name (category n)).

(** The instance with its two estimator handles cleared. *)
Definition without_handles {Model Client Float}
    (self : GalaxyRenderer Model Client Float)
    : GalaxyRenderer Model Client Float :=
  {| model := model self; n_clusters := n_clusters self; kmeans := None;
     umap_reducer := None; groq_client := groq_client self |}.

(** Calls to the file system, as opposed to calls to a pipeline
    component. *)
Definition is_storage_call {Model Client Float}
    (e : @event Model Client Float) : bool :=
  match e with
  | Event c _ =>
      match c with
      | NotesFileExists | ReadNotesFile | MkdirDataDir | WriteNotesFile _ =>
          true
      | _ => false
      end
  end.

(** A word: a non-empty text without white space. *)
Definition word (w : str) : Prop :=
  w <> [] /\ Forall (fun c => isspace c = false) w.

(** The exception, if any, raised by the embedder, by [KMeans] or by
    [UMAP] on a non-empty note list. *)
Definition stage_failure {Model Client Float} (env : Env Model Client Float)
    (self : GalaxyRenderer Model Client Float) (notes : list str)
    : option exn :=
  match notes with
  | [] => None
  | _ :: _ =>
      match model_encode env (model self) notes with
      | Raise e => Some e
      | Ok embeddings =>
          match sklearn_fit_predict env (kmeans_config self) embeddings with
          | Raise e => Some e
          | Ok _ =>
              match umap_fit env (umap_config notes) embeddings with
              | Raise e => Some e
              | Ok _ => None
              end
          end
      end
  end.

(** A call to [random.sample] asks for three notes out of more than
    three; any other call passes. *)
Definition sampling_ok {Model Client Float}
    (e : @event Model Client Float) : bool :=
  match e with
  | Event c _ =>
      match c with
      | RandomSample population k =>
          Nat.eqb k 3 && Nat.ltb 3 (length population)
      | _ => true
      end
  end.

(** The two handles that [process_notes] leaves in the instance, read off
    the assignments of lines 124-138: nothing is assigned on the empty
    list or before the embedder has returned; [self.kmeans] is assigned
    before [fit_predict] runs, which fits it in place; [self.umap_reducer]
    is assigned once [fit_predict] has returned, before [fit_transform]
    runs, which fits it in place. *)
Definition handles_after {Model Client Float} (env : Env Model Client Float)
    (self : GalaxyRenderer Model Client Float) (notes : list str)
    : option KMeans * option (@UMAP Float) :=
  let km fitted := Some {| km_params := kmeans_config self;
                           km_labels_ := fitted |} in
  let um fitted := Some {| um_params := umap_config notes;
                           um_embedding_ := fitted |} in
  match notes with
  | [] => (kmeans self, umap_reducer self)
  | _ :: _ =>
      match model_encode env (model self) notes with
      | Raise _ => (kmeans self, umap_reducer self)
      | Ok embeddings =>
          match sklearn_fit_predict env (kmeans_config self) embeddings with
          | Raise _ => (km None, umap_reducer self)
          | Ok labels =>
              match umap_fit env (umap_config notes) embeddings with
              | Raise _ => (km (Some labels), um None)
              | Ok coords_3d => (km (Some labels), um (Some coords_3d))
              end
          end
      end
  end.

(** The calls made by one iteration of the naming loop for a cluster
    whose notes are [cn]: one request whose prompt lists [cn] itself when
    the cluster has at most three notes; otherwise a call to
    [random.sample] for three of [cn], then one request whose prompt lists
    the sample returned. *)
Definition prompt_block {Model Client Float} (client : Client)
    (cn : list str) (block : list (@event Model Client Float)) : Prop :=
  exists a,
    (length cn <= 3)%nat
    /\ block = [Event (ChatCompletionsCreate client
                         (title_request (make_prompt cn))) a]
    \/ (3 < length cn)%nat
       /\ exists sample,
            block = [Event (RandomSample cn 3) sample;
                     Event (ChatCompletionsCreate client
                              (title_request (make_prompt sample))) a].

(** ** A small concrete environment

    Embeddings are one-dimensional: the length of the note.  K-means
    labels a note by that length modulo [n_clusters]; the projection puts
    it at [(v, v + 1, v + 2)].  The world is a counter of the calls made
    to the language model; [chat] gives the answer of each call. *)
Module Demo.

Definition env (key : option str) (chat : nat -> result str)
    (disk : write_outcome) : Env unit unit Z :=
  {| World := nat;
     load_model := fun _ w => (Ok (), w);
     environ := fun _ _ => key;
     new_client := fun _ w => (Ok (), w);
     model_encode := fun _ sentences =>
       Ok (map (fun s => [Z.of_nat (length s)]) sentences);
     kmeans_fit := fun p X =>
       Ok (map (fun row => hd 0 row mod km_n_clusters p) X);
     umap_fit := fun _ X =>
       Ok (map (fun row => let v := hd 0 row in [v; v + 1; v + 2]) X);
     random_sample := fun population k w => (take k population, w);
     chat_create := fun _ _ w => (chat w, S w);
     mkdir := fun w => (Ok (), w);
     open_write := fun w => (disk, w) |}.

(** A renderer as [__init__] leaves it. *)
Definition renderer (k : Z) (client : option unit)
    : GalaxyRenderer unit unit Z :=
  {| model := (); n_clusters := k; kmeans := None; umap_reducer := None;
     groq_client := client |}.

Definition start (e : Env unit unit Z) (f : notes_file) (w : World e)
    : Sys e :=
  {| fs := f; world := w |}.

(** A language model that answers every request with the same text. *)
Definition always (content : str) : nat -> result str :=
  fun _ => Ok content.

(** A language model whose third request fails. *)
Definition third_fails : nat -> result str :=
  fun w =>
    match w with
    | 0%nat => Ok (lit "Deep Space")
    | 1%nat => Ok (lit "Web Frameworks")
    | _ => Raise (LibraryError (lit "Connection error."))
    end.

(** Four notes of lengths 3, 4, 5 and 2; two one-letter notes. *)
Definition four_notes : list str :=
  [lit "abc"; lit "abcd"; lit "abcde"; lit "ab"].

Definition two_notes : list str := [lit "a"; lit "b"].

(** A credential is set, the third request fails, the disk works. *)
Definition online : Env unit unit Z :=
  env (Some (lit "gsk-demo")) third_fails Written.

(** No credential is set. *)
Definition offline : Env unit unit Z := env None third_fails Written.

(** The language model answers with an empty text. *)
Definition blank : Env unit unit Z :=
  env (Some (lit "gsk-demo")) (always []) Written.

(** [process_notes] on the four notes, three clusters, client present. *)
Definition four_processed :=
  Eval vm_compute in
    run online (process_notes four_notes (renderer 3 (Some ())))
        (start online Absent 0%nat).

Definition four_galaxy : Galaxy Z :=
  Eval vm_compute in
    match four_processed.1.1.1 with
    | Ok g => g
    | Raise _ => {| nodes := []; cluster_names := ∅ |}
    end.

(** The first iteration of the naming loop on the same input. *)
Definition first_named :=
  Eval vm_compute in
    run online
        (name_cluster [0; 1; 2; 2] four_notes ∅ 0 (renderer 3 (Some ())))
        (start online Absent 0%nat).

(** Building an instance without credential, then two calls on it. *)
Definition built_offline :=
  Eval vm_compute in
    run offline (__init__ default_model_name 3) (start offline Absent 0%nat).

(** The three steps of [POST /notes] with the two notes, on an empty
    store and with the default five clusters. *)
Definition two_loaded :=
  Eval vm_compute in
    run online (load_notes (renderer 5 (Some ()))) (start online Absent 0%nat).

Definition two_saved :=
  Eval vm_compute in
    run online (save_notes ([] ++ two_notes) (renderer 5 (Some ())))
        two_loaded.1.2.

Definition two_processed :=
  Eval vm_compute in
    run online (process_notes ([] ++ two_notes) (renderer 5 (Some ())))
        two_saved.1.2.

(** The disk refuses to open the notes file for writing. *)
Definition read_only : Env unit unit Z :=
  env (Some (lit "gsk-demo")) third_fails
      (Refused (LibraryError (lit "Permission denied"))).

(** [POST /notes] with the four notes, on an empty store, three
    clusters. *)
Definition four_added :=
  Eval vm_compute in
    run online (add_notes four_notes (renderer 3 (Some ())))
        (start online Absent 0%nat).

(** [POST /notes] with the two notes, five clusters. *)
Definition two_added :=
  Eval vm_compute in
    run online (add_notes two_notes (renderer 5 (Some ())))
        (start online Absent 0%nat).

(** [GET /nodes] with the two notes in store, five clusters. *)
Definition two_listed :=
  Eval vm_compute in
    run online (Routes.get_nodes (renderer 5 (Some ())))
        (start online (Holds {| doc_notes := Some two_notes |}) 0%nat).

(** [save_notes] on the disk that refuses. *)
Definition two_refused :=
  Eval vm_compute in
    run read_only (save_notes two_notes (renderer 5 (Some ())))
        (start read_only Absent 0%nat).

End Demo.

(** * Properties *)

Section Properties.

Context {Model Client Float : Type} (env : Env Model Client Float).

Implicit Types self : GalaxyRenderer Model Client Float.
Implicit Types s : Sys env.
Implicit Types notes : list str.
Implicit Types t : list (@event Model Client Float).

(** ** Running sequenced programs *)

Lemma run_pbind {A B} (p : @prog Model Client Float A) (f : A -> prog B) s :
  run env (pbind p f) s =
  let '(a, s1, t1) := run env p s in
  let '(b, s2, t2) := run env (f a) s1 in
  (b, s2, t1 ++ t2).
Proof.
  revert s. induction p as [a | X c k IH]; intros s; simpl.
  - by destruct (run env (f a) s) as [[b s2] t2].
  - destruct (handle env c s) as [x0 s1]. rewrite IH.
    destruct (run env (k x0) s1) as [[a s2] t1].
    by destruct (run env (f a) s2) as [[b s3] t2].
Qed.

Lemma run_bind {A B} (m : M A) (f : A -> M B) self s :
  run env (bind m f self) s =
  let '((r, self1), s1, t1) := run env (m self) s in
  match r with
  | Ok a =>
      let '(b, s2, t2) := run env (f a self1) s1 in (b, s2, t1 ++ t2)
  | Raise e => ((Raise e, self1), s1, t1)
  end.
Proof.
  unfold bind. rewrite run_pbind.
  destruct (run env (m self) s) as [[[r self1] s1] t1].
  destruct r as [a | e]; simpl; [done |]. by rewrite app_nil_r.
Qed.

Lemma run_try_except {A} (body : M A) (handler : exn -> M A) self s :
  run env (try_except body handler self) s =
  let '((r, self1), s1, t1) := run env (body self) s in
  match r with
  | Ok a => ((Ok a, self1), s1, t1)
  | Raise e =>
      let '(b, s2, t2) := run env (handler e self1) s1 in (b, s2, t1 ++ t2)
  end.
Proof.
  unfold try_except. rewrite run_pbind.
  destruct (run env (body self) s) as [[[r self1] s1] t1].
  destruct r as [a | e]; simpl; [| done]. by rewrite app_nil_r.
Qed.

(** ** The empty note list *)

(** C2. On the empty note list [process_notes] returns
    [{"nodes": [], "cluster_names": {}}] at once: the instance and the
    system are left as they were and the trace is empty, so neither the
    embedder, the clusterer, the projector nor the namer is called. *)
Theorem process_notes_empty self s :
  process_notes [] self = Ret (Ok {| nodes := []; cluster_names := ∅ |}, self)
  /\ run env (process_notes [] self) s
     = ((Ok {| nodes := []; cluster_names := ∅ |}, self), s, []).
Proof. split; reflexivity. Qed.


(** ** The namer *)

Ltac unfold_method :=
  unfold mbind, M_bind, mret, M_ret, bind, try_except, lift, ask, invoke,
    raise, ret, get_self, set_kmeans, set_umap_reducer.

Lemma run_name_cluster labels notes names c self s :
  let '((r, self1), s1, t) :=
    run env (name_cluster labels notes names c self) s in
  self1 = self /\ fs s1 = fs s /\
  match cluster_notes_from labels c 0 notes with
  | Raise e => r = Raise e /\ chat_answers t = []
  | Ok _ =>
      match groq_client self with
      | Some _ =>
          exists a, chat_answers t = [a]
                    /\ r = Ok (<[c := name_of_answer c a]> names)
      | None =>
          chat_answers t = [] /\ r = Ok (<[c := generic_name c]> names)
      end
  end.
Proof.
  unfold name_cluster, request_title. unfold_method.
  destruct (cluster_notes_from labels c 0 notes) as [cn | e];
    cbn [run pbind]; [| done].
  set (k := Nat.min 3 (length cn)).
  destruct (Nat.ltb k (length cn)); cbn [run pbind handle fst snd].
  all: destruct (groq_client self) as [client |] eqn:Hc;
    cbn [run pbind handle fst snd world fs].
  all: try (destruct (chat_create env client _ _) as [[content | e] w2];
    cbn [run pbind handle fst snd world fs]).
  all: try (destruct (title_of_content content) as [name | e] eqn:Ht;
    cbn [run pbind handle fst snd world fs]).
  all: (split; [done |]); (split; [done |]); try done.
  all: eexists; (split; [reflexivity |]); unfold name_of_answer;
    by rewrite ?Ht.
Qed.

Lemma index_Ok {A} (l : list A) i a : index l i = Ok a <-> l !! i = Some a.
Proof. unfold index. destruct (l !! i); split; congruence. Qed.

Lemma index_is_ok {A} (l : list A) i :
  is_ok (index l i) = bool_decide (i < length l)%nat.
Proof.
  unfold index. case_bool_decide as H.
  - apply lookup_lt_is_Some in H as [a ->]. done.
  - rewrite (proj2 (lookup_ge_None l i)); [done | lia].
Qed.

(** Whether the comprehension of line 69 raises depends on the lengths
    only, not on the cluster looked for. *)
Lemma cluster_notes_from_is_ok labels c i notes :
  is_ok (cluster_notes_from labels c i notes)
  = bool_decide (notes = [] \/ (i + length notes <= length labels)%nat).
Proof.
  revert i. induction notes as [| note rest IH]; intros i.
  - rewrite bool_decide_eq_true_2; [done | by left].
  - cbn [cluster_notes_from]. unfold mbind, result_bind.
    pose proof (index_is_ok labels i) as Hi.
    specialize (IH (S i)).
    destruct (index labels i) as [l | e];
      [destruct (cluster_notes_from labels c (S i) rest) as [more | e] |];
      cbn [is_ok] in *; symmetry.
    + apply bool_decide_eq_true. right. symmetry in Hi, IH.
      apply bool_decide_eq_true in Hi, IH.
      destruct IH as [-> | IH]; simpl in *; lia.
    + apply bool_decide_eq_false. symmetry in IH.
      apply bool_decide_eq_false in IH.
      intros [? | H]; [done |]. apply IH. right. simpl in H. lia.
    + apply bool_decide_eq_false. symmetry in Hi.
      apply bool_decide_eq_false in Hi.
      intros [? | H]; [done |]. simpl in H. lia.
Qed.

Lemma cluster_notes_from_raises labels c i notes e :
  cluster_notes_from labels c i notes = Raise e ->
  e = IndexError (lit "index out of range").
Proof.
  revert i. induction notes as [| note rest IH]; intros i; simpl; [done |].
  unfold mbind, result_bind, index.
  destruct (labels !! i); [| congruence].
  specialize (IH (S i)).
  destruct (cluster_notes_from labels c (S i) rest); [done |].
  intros [= <-]. by apply IH.
Qed.

Lemma nodes_from_relabel labels (coords : list (list Float)) names i notes :
  nodes_from labels coords names i notes
  = match nodes_from labels coords ∅ i notes with
    | Ok ns => Ok (map (relabel names) ns)
    | Raise e => Raise e
    end.
Proof.
  revert i. induction notes as [| note rest IH]; intros i; [done |].
  cbn [nodes_from]. unfold mbind, result_bind. rewrite IH.
  destruct (index labels i) as [c | e]; [| done].
  destruct (index coords i) as [row | e]; [| done].
  destruct (index row 0) as [cx | e]; [| done].
  destruct (index row 1) as [cy | e]; [| done].
  destruct (index row 2) as [cz | e]; [| done].
  destruct (nodes_from labels coords ∅ (S i) rest) as [more | e]; [| done].
  done.
Qed.

Lemma nodes_from_Ok labels (coords : list (list Float)) names i notes ns :
  nodes_from labels coords names i notes = Ok ns ->
  map id ns = map Z.of_nat (seq i (length notes))
  /\ map label ns = notes
  /\ (notes = [] \/ (i + length notes <= length labels)%nat)
  /\ Forall (fun n => category n ∈ labels
                      /\ cluster_label n
                         = default (generic_name (category n))
                                   (names !! category n)) ns.
Proof.
  revert i ns. induction notes as [| note rest IH]; intros i ns.
  - intros [= <-]. repeat split; auto.
  - cbn [nodes_from]. unfold mbind, result_bind. intros H.
    destruct (index labels i) as [c | e] eqn:Hc; [| done].
    destruct (index coords i) as [row | e]; [| done].
    destruct (index row 0) as [cx | e]; [| done].
    destruct (index row 1) as [cy | e]; [| done].
    destruct (index row 2) as [cz | e]; [| done].
    destruct (nodes_from labels coords names (S i) rest) as [more | e] eqn:Hm;
      [| done].
    injection H as <-. apply index_Ok in Hc.
    destruct (IH _ _ Hm) as (Hid & Hlabel & Hlen & Hall).
    cbn [map length seq id label]. rewrite Hid, Hlabel.
    split; [done |]. split; [done |]. split.
    + right. apply lookup_lt_Some in Hc.
      destruct Hlen as [-> | Hlen]; simpl in *; lia.
    + constructor; [| done]. split; [| done]. simpl.
      by eapply list_elem_of_lookup_2.
Qed.

Lemma chat_answers_app t1 t2 :
  chat_answers (t1 ++ t2) = chat_answers t1 ++ chat_answers t2.
Proof. apply omap_app. Qed.

Lemma store_names_cons names c cs a answers :
  store_names names (c :: cs) (a :: answers)
  = store_names (<[c := name_of_answer c a]> names) cs answers.
Proof. reflexivity. Qed.

(** The loop of [_name_clusters] when a client is present: it leaves the
    instance and the notes file alone, sends one request per cluster and
    stores a name for each; it raises only when the label list is shorter
    than the note list. *)
Lemma run_name_loop labels notes self client cs names s :
  groq_client self = Some client ->
  let '((r, self1), s1, t) :=
    run env (for_each cs (name_cluster labels notes) names self) s in
  self1 = self /\ fs s1 = fs s /\
  if bool_decide (cs = []) || is_ok (cluster_notes_from labels 0 0 notes)
  then length (chat_answers t) = length cs
       /\ r = Ok (store_names names cs (chat_answers t))
  else r = Raise (IndexError (lit "index out of range")).
Proof.
  intros Hclient. revert names s.
  induction cs as [| c cs IH]; intros names s; [done |].
  cbn [for_each]. unfold mbind, M_bind. rewrite run_bind.
  pose proof (run_name_cluster labels notes names c self s) as H1.
  destruct (run env (name_cluster labels notes names c self) s)
    as [[[r1 self1] s1] t1].
  destruct H1 as (-> & Hfs1 & H1).
  rewrite bool_decide_eq_false_2 by done. cbn [orb].
  pose proof (cluster_notes_from_is_ok labels c 0 notes) as Hc.
  rewrite <- (cluster_notes_from_is_ok labels 0 0 notes) in Hc.
  destruct (cluster_notes_from labels c 0 notes) as [cn | e] eqn:Hcn;
    cbn [is_ok] in Hc; rewrite <- Hc.
  - rewrite Hclient in H1. destruct H1 as (a & Ha & ->).
    specialize (IH (<[c := name_of_answer c a]> names) s1).
    destruct (run env (for_each cs _ _ self) s1) as [[[r2 self2] s2] t2].
    destruct IH as (-> & Hfs2 & IH).
    split; [done |]. split; [congruence |].
    rewrite <- Hc, orb_true_r in IH. destruct IH as [Hlen ->].
    rewrite chat_answers_app, Ha. cbn [app length].
    split; [by rewrite Hlen |]. by rewrite store_names_cons.
  - destruct H1 as [-> _]. split; [done |]. split; [done |].
    f_equal. by eapply cluster_notes_from_raises.
Qed.

Lemma run_name_clusters labels notes self s :
  let '((r, self1), s1, t) := run env (_name_clusters labels notes self) s in
  self1 = self /\ fs s1 = fs s /\
  match groq_client self with
  | None =>
      t = [] /\ s1 = s /\ r = Ok (generic_names (unique_clusters labels))
  | Some _ =>
      if bool_decide (unique_clusters labels = [])
         || is_ok (cluster_notes_from labels 0 0 notes)
      then length (chat_answers t) = length (unique_clusters labels)
           /\ r = Ok (store_names ∅ (unique_clusters labels) (chat_answers t))
      else r = Raise (IndexError (lit "index out of range"))
  end.
Proof.
  unfold _name_clusters. unfold_method. cbn [pbind].
  destruct (groq_client self) as [client |] eqn:Hclient.
  - pose proof (run_name_loop labels notes self client
                  (unique_clusters labels) ∅ s Hclient) as H.
    by destruct (run env (for_each _ _ _ self) s) as [[[r self1] s1] t].
  - done.
Qed.

(** ** Dictionaries of cluster names *)

Lemma elem_of_unique_clusters c labels :
  c ∈ unique_clusters labels <-> c ∈ labels.
Proof.
  unfold unique_clusters. rewrite merge_sort_Permutation.
  apply elem_of_remove_dups.
Qed.

Lemma NoDup_unique_clusters labels : NoDup (unique_clusters labels).
Proof.
  unfold unique_clusters. rewrite merge_sort_Permutation.
  apply NoDup_remove_dups.
Qed.

Lemma clean_names_id (names : gmap Z str) : clean_names names = names.
Proof.
  unfold clean_names, int_, str_.
  rewrite <- (list_to_map_to_list names) at 2. f_equal.
  induction (map_to_list names) as [| [k v] l IH]; [done |].
  simpl. by rewrite IH.
Qed.

Lemma generic_names_lookup cs c :
  generic_names cs !! c = if decide (c ∈ cs) then Some (generic_name c) else None.
Proof.
  unfold generic_names. induction cs as [| c0 cs IH]; [done |].
  cbn [map list_to_map foldr]. cbn [fst snd].
  destruct (decide (c0 = c)) as [-> | Hne].
  - rewrite lookup_insert_eq, decide_True; [done | by left].
  - rewrite lookup_insert_ne, IH by done.
    destruct (decide (c ∈ cs)) as [Hin | Hnin].
    + rewrite decide_True; [done | by right].
    + rewrite decide_False; [done |]. by intros [-> | ?]%elem_of_cons.
Qed.

Lemma store_names_notin names cs answers c :
  c ∉ cs -> store_names names cs answers !! c = names !! c.
Proof.
  revert names answers. induction cs as [| c0 cs IH]; intros names answers Hc;
    [done |].
  destruct answers as [| a answers]; [done |].
  rewrite store_names_cons, IH, lookup_insert_ne; [done | |].
  - intros ->. apply Hc. by left.
  - intros Hin. apply Hc. by right.
Qed.

Lemma store_names_lookup names cs answers i c a :
  NoDup cs -> cs !! i = Some c -> answers !! i = Some a ->
  store_names names cs answers !! c = Some (name_of_answer c a).
Proof.
  revert names answers i.
  induction cs as [| c0 cs IH]; intros names answers i Hnd Hc Ha; [done |].
  destruct answers as [| a0 answers]; [done |].
  apply NoDup_cons in Hnd as [Hnotin Hnd].
  rewrite store_names_cons. destruct i as [| i]; simpl in Hc, Ha.
  - injection Hc as ->. injection Ha as ->.
    by rewrite store_names_notin, lookup_insert_eq.
  - by eapply IH.
Qed.

Lemma store_names_is_Some names cs answers c :
  length answers = length cs -> NoDup cs -> c ∈ cs ->
  is_Some (store_names names cs answers !! c).
Proof.
  intros Hlen Hnd [i Hi]%list_elem_of_lookup.
  destruct (lookup_lt_is_Some_2 answers i) as [a Ha].
  { rewrite Hlen. by eapply lookup_lt_Some. }
  erewrite store_names_lookup; eauto.
Qed.

(** ** [process_notes], stage by stage *)

Lemma run_process_notes note rest self s :
  let notes := note :: rest in
  let params := kmeans_config self in
  let uparams := umap_config notes in
  let unfitted := Some {| km_params := params; km_labels_ := None |} in
  let unprojected := Some {| um_params := uparams; um_embedding_ := None |} in
  run env (process_notes notes self) s =
  match model_encode env (model self) notes with
  | Raise e =>
      ((Raise e, self), s, [Event (Encode (model self) notes) (Raise e)])
  | Ok embeddings =>
      let t1 := [Event (Encode (model self) notes) (Ok embeddings)] in
      match sklearn_fit_predict env params embeddings with
      | Raise e =>
          ((Raise e, with_kmeans unfitted self), s,
           t1 ++ [Event (KMeansFitPredict params embeddings) (Raise e)])
      | Ok labels =>
          let self2 :=
            with_kmeans (Some {| km_params := params;
                                 km_labels_ := Some labels |})
                        (with_kmeans unfitted self) in
          let t2 :=
            t1 ++ [Event (KMeansFitPredict params embeddings) (Ok labels)] in
          match umap_fit env uparams embeddings with
          | Raise e =>
              ((Raise e, with_umap_reducer unprojected self2), s,
               t2 ++ [Event (UMAPFitTransform uparams embeddings) (Raise e)])
          | Ok coords_3d =>
              let self4 :=
                with_umap_reducer
                  (Some {| um_params := uparams;
                           um_embedding_ := Some coords_3d |})
                  (with_umap_reducer unprojected self2) in
              let '((rn, self5), s5, tn) :=
                run env (_name_clusters (map int_ labels) notes self4) s in
              ((match rn with
                | Ok names =>
                    match nodes_from (map int_ labels) coords_3d names 0 notes
                    with
                    | Ok ns =>
                        Ok {| nodes := ns;
                              cluster_names := clean_names names |}
                    | Raise e => Raise e
                    end
                | Raise e => Raise e
                end, self5), s5,
               t2 ++ Event (UMAPFitTransform uparams embeddings) (Ok coords_3d)
                  :: tn)
          end
      end
  end.
Proof.
  intros notes params uparams unfitted unprojected.
  subst notes params uparams unfitted unprojected.
  unfold process_notes. unfold_method. cbn [run pbind handle].
  destruct (model_encode env (model self) (note :: rest)) as [embeddings | e];
    cbn [run pbind handle]; [| done].
  destruct (sklearn_fit_predict env _ embeddings) as [labels | e];
    cbn [run pbind handle]; [| done].
  destruct (umap_fit env _ embeddings) as [coords_3d | e];
    cbn [run pbind handle]; [| done].
  rewrite run_pbind.
  destruct (run env (_name_clusters _ _ _) s) as [[[rn self5] s5] tn].
  destruct rn as [names | e]; cbn [run pbind]; [| by rewrite app_nil_r].
  destruct (nodes_from _ _ _ _ _); cbn [run]; by rewrite app_nil_r.
Qed.

(** What a normal return of [process_notes] on a non-empty list says
    about each stage. *)
Lemma process_notes_returns notes self s g self' s' t :
  notes <> [] ->
  run env (process_notes notes self) s = ((Ok g, self'), s', t) ->
  exists embeddings labels coords_3d names,
    model_encode env (model self) notes = Ok embeddings
    /\ sklearn_fit_predict env (kmeans_config self) embeddings = Ok labels
    /\ umap_fit env (umap_config notes) embeddings = Ok coords_3d
    /\ nodes_from (map int_ labels) coords_3d names 0 notes = Ok (nodes g)
    /\ cluster_names g = names
    /\ kmeans self' = Some {| km_params := kmeans_config self;
                             km_labels_ := Some labels |}
    /\ umap_reducer self' = Some {| um_params := umap_config notes;
                                   um_embedding_ := Some coords_3d |}
    /\ match groq_client self with
       | None =>
           chat_answers t = []
           /\ names = generic_names (unique_clusters (map int_ labels))
       | Some _ =>
           length (chat_answers t)
           = length (unique_clusters (map int_ labels))
           /\ names = store_names ∅ (unique_clusters (map int_ labels))
                                  (chat_answers t)
       end.
Proof.
  intros Hne. destruct notes as [| note rest]; [done |].
  rewrite run_process_notes.
  destruct (model_encode env _ _) as [embeddings | e] eqn:He; [| done].
  destruct (sklearn_fit_predict env _ _) as [labels | e] eqn:Hk; [| done].
  destruct (umap_fit env _ _) as [coords_3d | e] eqn:Hu; [| done].
  cbv zeta.
  match goal with |- context [run env (_name_clusters ?l ?n ?r) s] =>
    pose proof (run_name_clusters l n r s) as Hn;
    destruct (run env (_name_clusters l n r) s) as [[[rn self5] s5] tn]
  end.
  destruct Hn as (-> & Hfs & Hn).
  destruct rn as [names | e]; [| done].
  destruct (nodes_from _ _ names _ _) as [ns |] eqn:Hnodes; [| done].
  intros [= <- <- <- <-].
  exists embeddings, labels, coords_3d, names.
  do 3 (split; [done |]). split; [exact Hnodes |].
  split; [apply clean_names_id |].
  do 2 (split; [done |]).
  cbn [groq_client with_umap_reducer with_kmeans] in Hn.
  change (chat_answers (_ :: _ :: _ :: tn)) with (chat_answers tn).
  destruct (groq_client self).
  - destruct (_ || _); [| done]. destruct Hn as [Hlen [= ->]]. done.
  - destruct Hn as (-> & _ & [= ->]). done.
Qed.

(** ** The assembled nodes *)

(** C3. When [process_notes] returns normally on a non-empty list of N
    notes, the returned [nodes] list has N entries in the order of the
    notes: the node at position [i] has [id = i] and carries the i-th
    text as its label, so the ids are exactly 0, 1, ..., N-1, each
    once. *)
Theorem process_notes_nodes_in_order notes self s g self' s' t :
  notes <> [] ->
  run env (process_notes notes self) s = ((Ok g, self'), s', t) ->
  length (nodes g) = length notes
  /\ (forall i note, notes !! i = Some note ->
        exists n, nodes g !! i = Some n
                  /\ id n = Z.of_nat i /\ label n = note)
  /\ map id (nodes g) = map Z.of_nat (seq 0 (length notes))
  /\ NoDup (map id (nodes g)).
Proof.
  intros Hne Hrun.
  destruct (process_notes_returns _ _ _ _ _ _ _ Hne Hrun)
    as (embeddings & labels & coords_3d & names & _ & _ & _ & Hnodes & _).
  destruct (nodes_from_Ok _ _ _ _ _ _ Hnodes) as (Hid & Hlabel & _ & _).
  assert (Hlen : length (nodes g) = length notes).
  { rewrite <- (length_map label (nodes g)). by rewrite Hlabel. }
  split; [done |]. split; [| split; [done |]].
  - intros i note Hi.
    destruct (lookup_lt_is_Some_2 (nodes g) i) as [n Hn].
    { rewrite Hlen. by eapply lookup_lt_Some. }
    exists n. split; [done |]. split.
    + assert (Hi' : map id (nodes g) !! i = Some (id n))
        by (by rewrite list_lookup_fmap, Hn).
      rewrite Hid, list_lookup_fmap in Hi'.
      rewrite lookup_seq_lt in Hi' by (by eapply lookup_lt_Some).
      simpl in Hi'. congruence.
    + assert (Hi' : map label (nodes g) !! i = Some (label n))
        by (by rewrite list_lookup_fmap, Hn).
      rewrite Hlabel in Hi'. congruence.
  - rewrite Hid. apply (NoDup_fmap_2 Z.of_nat), NoDup_seq.
Qed.

(** C4. When [process_notes] returns normally, the [category] of every
    returned node is a key of the returned [cluster_names]. *)
Theorem categories_are_named notes self s g self' s' t :
  run env (process_notes notes self) s = ((Ok g, self'), s', t) ->
  forall n, n ∈ nodes g -> is_Some (cluster_names g !! category n).
Proof.
  intros Hrun n Hn. destruct (decide (notes = [])) as [-> | Hne].
  { injection Hrun as <- _ _ _. by apply elem_of_nil in Hn. }
  destruct (process_notes_returns _ _ _ _ _ _ _ Hne Hrun)
    as (embeddings & labels & coords_3d & names
        & _ & _ & _ & Hnodes & -> & _ & _ & Hnames).
  destruct (nodes_from_Ok _ _ _ _ _ _ Hnodes) as (_ & _ & _ & Hall).
  rewrite Forall_forall in Hall. destruct (Hall n Hn) as [Hcat _].
  apply elem_of_unique_clusters in Hcat.
  destruct (groq_client self).
  - destruct Hnames as [Hlen Hnames]. rewrite Hnames.
    apply store_names_is_Some; auto using NoDup_unique_clusters.
  - destruct Hnames as [_ Hnames].
    rewrite Hnames, generic_names_lookup, decide_True; eauto.
Qed.

(** ** What a call leaves in the instance *)

(** Whatever the outcome, [process_notes] keeps the model, the cluster
    count and the client, and does not touch the notes file. *)
Lemma process_notes_frame notes self s :
  let '((r, self'), s', t) := run env (process_notes notes self) s in
  model self' = model self /\ n_clusters self' = n_clusters self
  /\ groq_client self' = groq_client self /\ fs s' = fs s.
Proof.
  destruct notes as [| note rest]; [done |].
  rewrite run_process_notes.
  destruct (model_encode env _ _) as [embeddings | e]; [| done].
  destruct (sklearn_fit_predict env _ _) as [labels | e]; [| done].
  destruct (umap_fit env _ _) as [coords_3d | e]; [| done].
  cbv zeta.
  match goal with |- context [run env (_name_clusters ?l ?n ?r) s] =>
    pose proof (run_name_clusters l n r s) as Hn;
    destruct (run env (_name_clusters l n r) s) as [[[rn self5] s5] tn]
  end.
  by destruct Hn as (-> & Hfs & _).
Qed.

(** The handles stored by earlier calls are never read. *)
Lemma process_notes_ignores_handles notes self s :
  let '((r1, self1), s1, t1) := run env (process_notes notes self) s in
  let '((r2, self2), s2, t2) :=
    run env (process_notes notes (without_handles self)) s in
  r1 = r2 /\ s1 = s2 /\ t1 = t2
  /\ without_handles self1 = without_handles self2.
Proof.
  destruct notes as [| note rest]; [done |].
  rewrite !run_process_notes.
  change (model (without_handles self)) with (model self).
  change (kmeans_config (without_handles self)) with (kmeans_config self).
  destruct (model_encode env _ _) as [embeddings | e]; [| done].
  destruct (sklearn_fit_predict env _ _) as [labels | e]; [| done].
  destruct (umap_fit env _ _) as [coords_3d | e]; [| done].
  cbv zeta.
  match goal with
  | |- context [run env (_name_clusters ?l ?n ?r1) s] =>
      match goal with
      | |- context [run env (_name_clusters l n (with_umap_reducer ?a
                      (with_umap_reducer ?b (with_kmeans ?c (with_kmeans ?d
                        (without_handles self)))))) s] =>
          change (with_umap_reducer a (with_umap_reducer b (with_kmeans c
                    (with_kmeans d (without_handles self))))) with r1;
          destruct (run env (_name_clusters l n r1) s)
            as [[[rn self5] s5] tn]
      end
  end.
  done.
Qed.

(** ** Assignments and coordinates *)

Lemma nodes_from_raises labels (coords : list (list Float)) names i notes e :
  nodes_from labels coords names i notes = Raise e ->
  e = IndexError (lit "index out of range").
Proof.
  revert i. induction notes as [| note rest IH]; intros i; [done |].
  cbn [nodes_from]. unfold mbind, result_bind.
  assert (Hidx : forall A (l : list A) j e',
            index l j = Raise e' -> e' = IndexError (lit "index out of range")).
  { intros A l j e'. unfold index. destruct (l !! j); congruence. }
  destruct (index labels i) as [c | e1] eqn:H1;
    [| intros [= <-]; by eapply Hidx].
  destruct (index coords i) as [row | e1] eqn:H2;
    [| intros [= <-]; by eapply Hidx].
  destruct (index row 0) as [cx | e1] eqn:H3;
    [| intros [= <-]; by eapply Hidx].
  destruct (index row 1) as [cy | e1] eqn:H4;
    [| intros [= <-]; by eapply Hidx].
  destruct (index row 2) as [cz | e1] eqn:H5;
    [| intros [= <-]; by eapply Hidx].
  specialize (IH (S i)).
  destruct (nodes_from labels coords names (S i) rest); [done |].
  intros [= <-]. by apply IH.
Qed.

Lemma layout_of_relabel (names : gmap Z str) (ns : list (Node Float)) cn cn' :
  layout_of (Ok {| nodes := map (relabel names) ns; cluster_names := cn |})
  = layout_of (Ok {| nodes := ns; cluster_names := cn' |}).
Proof.
  unfold layout_of, assignments, coordinates. cbn [nodes].
  by rewrite !map_map.
Qed.

(** The assignments and coordinates returned by [process_notes], or the
    exception it raises, are those of [layout]: they depend on the model,
    on [n_clusters] and on the notes only. *)
Lemma process_notes_layout notes self s :
  layout_of (run env (process_notes notes self) s).1.1.1
  = layout env self notes.
Proof.
  destruct notes as [| note rest]; [done |].
  rewrite run_process_notes. unfold layout.
  destruct (model_encode env _ _) as [embeddings | e]; [| done].
  destruct (sklearn_fit_predict env _ _) as [labels | e]; [| done].
  destruct (umap_fit env _ _) as [coords_3d | e]; [| done].
  cbv zeta.
  match goal with |- context [run env (_name_clusters ?l ?n ?r) s] =>
    pose proof (run_name_clusters l n r s) as Hn;
    destruct (run env (_name_clusters l n r) s) as [[[rn self5] s5] tn]
  end.
  destruct Hn as (_ & _ & Hn). cbn [fst].
  assert (Hnamed : forall names,
    layout_of
      (match nodes_from (map int_ labels) coords_3d names 0 (note :: rest) with
       | Ok ns => Ok {| nodes := ns; cluster_names := clean_names names |}
       | Raise e => Raise e
       end)
    = layout_of
      (match nodes_from (map int_ labels) coords_3d ∅ 0 (note :: rest) with
       | Ok ns => Ok {| nodes := ns; cluster_names := ∅ |}
       | Raise e => Raise e
       end)).
  { intros names. rewrite (nodes_from_relabel _ _ names).
    destruct (nodes_from _ _ ∅ _ _); [apply layout_of_relabel | done]. }
  destruct (groq_client _).
  - destruct (_ || _) eqn:Hcover.
    + destruct Hn as [_ ->]. apply Hnamed.
    + subst rn. apply orb_false_iff in Hcover as [_ Hcover].
      rewrite cluster_notes_from_is_ok in Hcover.
      apply bool_decide_eq_false in Hcover.
      destruct (nodes_from _ _ ∅ _ _) as [ns | e] eqn:Hnodes.
      * apply nodes_from_Ok in Hnodes as (_ & _ & Hlen & _). done.
      * apply nodes_from_raises in Hnodes as ->. done.
  - destruct Hn as (_ & _ & ->). apply Hnamed.
Qed.

(** C5. Two calls of [process_notes] on the same notes, with the same
    model and the same [n_clusters] (the seeds are the constants 42 of the
    code), agree on the cluster assignments and on the 3D coordinates, and
    raise the same exception if they raise; this holds whatever state the
    language model, the random sampler and the notes file are in and
    whatever handles earlier calls left in the two instances. *)
Theorem process_notes_reproducible notes self1 self2 s1 s2 :
  model self1 = model self2 ->
  n_clusters self1 = n_clusters self2 ->
  layout_of (run env (process_notes notes self1) s1).1.1.1
  = layout_of (run env (process_notes notes self2) s2).1.1.1.
Proof.
  intros Hmodel Hk. rewrite !process_notes_layout.
  unfold layout, kmeans_config. by rewrite Hmodel, Hk.
Qed.

(** ** Fewer notes than clusters *)

(** C1. With at least one note but fewer notes than [n_clusters],
    [process_notes] does not return: the cluster count is handed to
    [KMeans] as configured, [fit_predict] rejects it and the [ValueError]
    leaves [process_notes], after [self.kmeans] was set to the unfitted
    estimator.  (The embedder is taken to return one row per note.) *)
Theorem fewer_notes_than_clusters_raises notes self s embeddings :
  notes <> [] ->
  Z.of_nat (length notes) < n_clusters self ->
  model_encode env (model self) notes = Ok embeddings ->
  length embeddings = length notes ->
  exists msg t,
    run env (process_notes notes self) s
    = ((Raise (ValueError msg),
        with_kmeans (Some {| km_params := kmeans_config self;
                             km_labels_ := None |}) self), s, t).
Proof.
  intros Hne Hlt Henc Hrows. destruct notes as [| note rest]; [done |].
  rewrite run_process_notes, Henc. unfold sklearn_fit_predict.
  rewrite Hrows. cbn [km_n_clusters kmeans_config].
  rewrite (proj2 (Z.ltb_lt _ _) Hlt). eauto.
Qed.

(** ** Names without a language model *)

Lemma init_without_credential model_name k s self s1 t :
  credential_at_init env model_name s = None
  \/ credential_at_init env model_name s = Some [] ->
  run env (__init__ model_name k) s = (Ok self, s1, t) ->
  groq_client self = None.
Proof.
  unfold credential_at_init, __init__. intros Hkey.
  cbn [run handle]. destruct (load_model env model_name (world s)) as [r w1].
  cbn [fst snd] in *. destruct r as [m | e]; cbn [run handle]; [| done].
  cbn [world]. destruct Hkey as [-> | ->]; cbn [run].
  all: by intros [= <- _ _].
Qed.

Lemma process_notes_without_client notes self s :
  groq_client self = None ->
  let '((r, self'), s', t) := run env (process_notes notes self) s in
  chat_answers t = [] /\ groq_client self' = None
  /\ forall g, r = Ok g -> all_generic g.
Proof.
  intros Hnone.
  pose proof (process_notes_frame notes self s) as Hframe.
  destruct (run env (process_notes notes self) s) as [[[r self'] s'] t] eqn:Hrun.
  destruct Hframe as (_ & _ & Hclient & _).
  split; [| split; [congruence |]].
  - destruct notes as [| note rest]; [by injection Hrun as <- <- <- <- |].
    rewrite run_process_notes in Hrun.
    destruct (model_encode env _ _) as [embeddings | e];
      [| by injection Hrun as <- <- <- <-].
    destruct (sklearn_fit_predict env _ _) as [labels | e];
      [| by injection Hrun as <- <- <- <-].
    destruct (umap_fit env _ _) as [coords_3d | e];
      [| by injection Hrun as <- <- <- <-].
    cbv zeta in Hrun.
    match type of Hrun with context [run env (_name_clusters ?l ?n ?r) s] =>
      pose proof (run_name_clusters l n r s) as Hn;
      destruct (run env (_name_clusters l n r) s) as [[[rn self5] s5] tn]
    end.
    cbn [groq_client with_umap_reducer with_kmeans] in Hn.
    rewrite Hnone in Hn. destruct Hn as (_ & _ & -> & _).
    by injection Hrun as <- <- <- <-.
  - intros g ->. destruct (decide (notes = [])) as [-> | Hne].
    { injection Hrun as <- _ _ _. split; [done |].
      intros n Hn. by apply elem_of_nil in Hn. }
    destruct (process_notes_returns _ _ _ _ _ _ _ Hne Hrun)
      as (embeddings & labels & coords_3d & names
          & _ & _ & _ & Hnodes & Hcn & _ & _ & Hnames).
    rewrite Hnone in Hnames. destruct Hnames as [_ Hnames].
    destruct (nodes_from_Ok _ _ _ _ _ _ Hnodes) as (_ & _ & _ & Hall).
    rewrite Forall_forall in Hall. unfold all_generic.
    rewrite Hcn, Hnames. split.
    + intros c name. rewrite generic_names_lookup.
      destruct (decide _); congruence.
    + intros n Hn. destruct (Hall n Hn) as [Hcat Hlabel].
      apply elem_of_unique_clusters in Hcat.
      rewrite Hlabel, Hnames, generic_names_lookup, decide_True by done.
      done.
Qed.

(** C6. If no credential is found when the instance is built, the client
    is absent from then on: in every later call on that instance no
    request is sent to the language model, and in every result the name of
    each cluster id [c] is exactly the text "Category c". *)
Theorem generic_names_without_credential model_name k s0 self0 s1 t0 :
  credential_at_init env model_name s0 = None
  \/ credential_at_init env model_name s0 = Some [] ->
  run env (__init__ model_name k) s0 = (Ok self0, s1, t0) ->
  groq_client self0 = None
  /\ forall requests s,
       let '((rs, self'), s', t) := run env (calls requests self0) s in
       chat_answers t = [] /\ groq_client self' = None
       /\ Forall (fun r => forall g, r = Ok g -> all_generic g) rs.
Proof.
  intros Hkey Hinit.
  pose proof (init_without_credential _ _ _ _ _ _ Hkey Hinit) as Hnone.
  split; [done |]. clear Hkey Hinit. revert Hnone. generalize self0.
  intros self Hnone requests. revert self Hnone.
  induction requests as [| notes rest IH]; intros self Hnone s; [done |].
  cbn [calls]. rewrite run_pbind.
  pose proof (process_notes_without_client notes self s Hnone) as H1.
  destruct (run env (process_notes notes self) s) as [[[r self1] s1'] t1].
  destruct H1 as (Ht1 & Hnone1 & Hr). rewrite run_pbind.
  specialize (IH self1 Hnone1 s1').
  destruct (run env (calls rest self1) s1') as [[[rs self2] s2] t2].
  destruct IH as (Ht2 & Hnone2 & Hrs). cbn [run].
  rewrite !chat_answers_app, Ht1, Ht2. repeat split; try done.
  by constructor.
Qed.

(** ** Failures of the language model *)

Lemma Sorted_unique_clusters labels : Sorted Z.le (unique_clusters labels).
Proof. apply (Sorted_merge_sort Z.le). Qed.

Lemma store_names_keys cs answers c :
  length answers = length cs -> NoDup cs ->
  c ∈ cs <-> is_Some (store_names ∅ cs answers !! c).
Proof.
  intros Hlen Hnd. split; [by apply store_names_is_Some |].
  intros Hsome. destruct (decide (c ∈ cs)) as [| Hnotin]; [done |].
  rewrite store_names_notin, lookup_empty in Hsome by done.
  by destruct Hsome.
Qed.

Lemma is_ok_layout_of (r : result (Galaxy Float)) :
  is_ok (layout_of r) = is_ok r.
Proof. by destruct r. Qed.

(** C7. With a client present, the result has a node for every note,
    every cluster that a node of the result belongs to is named, the
    clusters named are sent to the language model one request each, in
    ascending order, and the name of a cluster is decided by the answer to
    its own request alone: the title read from that answer, or
    "Category c" when that request raised (or gave no title); the nodes of
    the cluster carry that name.  Whether [process_notes] returns or
    raises is decided by the embedder, the clusterer and the projector
    ([layout]); no failure of the language model changes it. *)
Theorem namer_failures_are_isolated notes self client s :
  groq_client self = Some client ->
  let '((r, self'), s', t) := run env (process_notes notes self) s in
  is_ok r = is_ok (layout env self notes)
  /\ forall g, r = Ok g ->
       map label (nodes g) = notes
       /\ exists cs,
         Sorted Z.le cs /\ NoDup cs
         /\ (forall c, c ∈ cs <-> is_Some (cluster_names g !! c))
         /\ (forall n, n ∈ nodes g ->
               category n ∈ cs
               /\ cluster_names g !! category n = Some (cluster_label n))
         /\ length (chat_answers t) = length cs
         /\ forall i c a,
              cs !! i = Some c -> chat_answers t !! i = Some a ->
              cluster_names g !! c = Some (name_of_answer c a)
              /\ (forall e, a = Raise e ->
                    cluster_names g !! c = Some (generic_name c)).
Proof.
  intros Hclient.
  pose proof (process_notes_layout notes self s) as Hlayout.
  destruct (run env (process_notes notes self) s) as [[[r self'] s'] t] eqn:Hrun.
  cbn [fst] in Hlayout. split.
  { by rewrite <- Hlayout, is_ok_layout_of. }
  intros g ->. destruct (decide (notes = [])) as [-> | Hne].
  { injection Hrun as <- _ _ <-. split; [done |].
    exists []. cbn [cluster_names nodes].
    repeat split; try done; try constructor.
    - by intros ?%elem_of_nil.
    - rewrite lookup_empty. by intros [? ?].
    - by apply elem_of_nil in H.
    - by apply elem_of_nil in H. }
  destruct (process_notes_returns _ _ _ _ _ _ _ Hne Hrun)
    as (embeddings & labels & coords_3d & names
        & _ & _ & _ & Hnodes & Hcn & _ & _ & Hnames).
  rewrite Hclient in Hnames. destruct Hnames as [Hlen Hnames].
  split; [by destruct (nodes_from_Ok _ _ _ _ _ _ Hnodes) as (_ & ? & _) |].
  exists (unique_clusters (map int_ labels)).
  pose proof (NoDup_unique_clusters (map int_ labels)) as Hnd.
  split; [apply Sorted_unique_clusters |]. split; [done |].
  rewrite Hcn, Hnames. split; [| split; [| split; [done |]]].
  - intros c. by apply store_names_keys.
  - intros n Hn.
    destruct (nodes_from_Ok _ _ _ _ _ _ Hnodes) as (_ & _ & _ & Hall).
    rewrite Forall_forall in Hall. destruct (Hall n Hn) as [Hcat Hlabel].
    apply (proj2 (elem_of_unique_clusters _ _)) in Hcat.
    split; [done |]. rewrite Hlabel, <- Hnames.
    destruct (store_names_is_Some ∅ _ (chat_answers t) _ Hlen Hnd Hcat)
      as [name Hname].
    rewrite <- Hnames in Hname. by rewrite Hname.
  - intros i c a Hc Ha.
    assert (Hname : store_names ∅ (unique_clusters (map int_ labels))
                      (chat_answers t) !! c = Some (name_of_answer c a))
      by (by eapply store_names_lookup).
    split; [done |]. by intros e ->.
Qed.

(** ** From the reply to the name *)

Lemma name_of_answer_Ok c content :
  name_of_answer c (Ok content) = title_as_coded c content.
Proof.
  unfold name_of_answer, title_as_coded, title_of_content.
  destruct (split (strip (first_line (strip content)))) as [| w1 [| w2 ws]];
    reflexivity.
Qed.

(** C8 (amended). When the language model answers the request of a
    cluster with [content], the name stored for the cluster is read from
    the first line of the stripped reply: its first two white-space
    separated tokens joined by one space, or its only token if there is
    just one, or "Category c" if that line holds no token at all. *)
Theorem name_from_reply labels notes names c self s r self' s' t content :
  run env (name_cluster labels notes names c self) s = ((r, self'), s', t) ->
  chat_answers t = [Ok content] ->
  r = Ok (<[c := title_as_coded c content]> names).
Proof.
  intros Hrun Hchat.
  pose proof (run_name_cluster labels notes names c self s) as H.
  rewrite Hrun in H. destruct H as (_ & _ & H).
  destruct (cluster_notes_from labels c 0 notes) as [cn | e].
  - destruct (groq_client self).
    + destruct H as (a & Ha & ->). rewrite Hchat in Ha.
      injection Ha as <-. by rewrite name_of_answer_Ok.
    + destruct H as [H _]. by rewrite Hchat in H.
  - destruct H as [_ H]. by rewrite Hchat in H.
Qed.

(** ** Stored handles *)

Lemma process_notes_handles notes self s :
  let '((r, self'), s', t) := run env (process_notes notes self) s in
  (kmeans self', umap_reducer self') = handles_after env self notes.
Proof.
  unfold handles_after. destruct notes as [| note rest]; [done |].
  rewrite run_process_notes.
  destruct (model_encode env _ _) as [embeddings | e]; [| done].
  destruct (sklearn_fit_predict env _ _) as [labels | e]; [| done].
  destruct (umap_fit env _ _) as [coords_3d | e]; [| done].
  cbv zeta.
  match goal with |- context [run env (_name_clusters ?l ?n ?r) s] =>
    pose proof (run_name_clusters l n r s) as Hn;
    destruct (run env (_name_clusters l n r) s) as [[[rn self5] s5] tn]
  end.
  by destruct Hn as (-> & _ & _).
Qed.

(** C9 (amended). [process_notes] keeps the model, the cluster count and
    the client of the instance, and reads none of the handles stored in
    it: started from the same instance with both handles cleared, it
    returns or raises the same, makes the same calls and leaves the same
    system state.  It does leave state of the call in the instance, as the
    call proceeds ([handles_after]): nothing on the empty list or when the
    embedder raises; its [KMeans], unfitted, when [fit_predict] raises,
    the previous [umap_reducer] staying in place; its fitted [KMeans] and
    its [UMAP], unfitted, when [fit_transform] raises; both fitted
    otherwise, in particular after a normal return on a non-empty list. *)
Theorem process_notes_keeps_only_handles notes self s :
  let '((r, self'), s', t) := run env (process_notes notes self) s in
  (model self' = model self /\ n_clusters self' = n_clusters self
   /\ groq_client self' = groq_client self)
  /\ (let '((r0, self0), s0, t0) :=
        run env (process_notes notes (without_handles self)) s in
      r = r0 /\ s' = s0 /\ t = t0
      /\ without_handles self' = without_handles self0)
  /\ (kmeans self', umap_reducer self') = handles_after env self notes
  /\ (forall g, r = Ok g -> notes <> [] ->
      exists labels coords_3d,
        kmeans self' = Some {| km_params := kmeans_config self;
                               km_labels_ := Some labels |}
        /\ umap_reducer self' = Some {| um_params := umap_config notes;
                                        um_embedding_ := Some coords_3d |}).
Proof.
  pose proof (process_notes_frame notes self s) as Hframe.
  pose proof (process_notes_ignores_handles notes self s) as Hignore.
  pose proof (process_notes_handles notes self s) as Hhandles.
  destruct (run env (process_notes notes self) s) as [[[r self'] s'] t] eqn:Hrun.
  destruct Hframe as (Hm & Hk & Hc & _).
  split; [done |]. split; [done |]. split; [done |].
  intros g -> Hne.
  destruct (process_notes_returns _ _ _ _ _ _ _ Hne Hrun)
    as (embeddings & labels & coords_3d & names
        & _ & _ & _ & _ & _ & Hkm & Hum & _).
  eauto.
Qed.

(** ** Adding notes *)

Lemma run_load_notes self s existing self1 s1 t :
  run env (load_notes self) s = ((Ok existing, self1), s1, t) ->
  existing = stored_notes (fs s) /\ self1 = self /\ s1 = s.
Proof.
  unfold load_notes. unfold_method. cbn [run pbind handle].
  destruct (fs s) as [| doc |] eqn:Hfs; cbn [negb run pbind handle].
  - by intros [= <- <- <- _].
  - rewrite Hfs. cbn [run pbind]. by intros [= <- <- <- _].
  - rewrite Hfs. cbn [run pbind]. done.
Qed.

Lemma run_save_notes notes self s self1 s1 t :
  run env (save_notes notes self) s = ((Ok (), self1), s1, t) ->
  fs s1 = Holds {| doc_notes := Some notes |} /\ self1 = self
  /\ exists made, t = [Event MkdirDataDir made;
                       Event (WriteNotesFile notes) (Ok ())].
Proof.
  unfold save_notes. unfold_method. cbn [run pbind handle].
  destruct (mkdir env (world s)) as [[[] | e] w1]; cbn [fst snd run pbind handle];
    [| done].
  cbn [world].
  destruct (open_write env w1) as [[| e | e] w2]; cbn [run pbind]; [| done ..].
  intros [= <- <- <-]. eauto.
Qed.

(** C10. In [add_notes] the request's notes are appended after the
    stored ones, and the combined list is written to the notes file before
    [process_notes] is called: the trace of the endpoint is that of
    loading, then that of saving, then that of processing.  The file is
    not touched again, so when processing raises the endpoint answers with
    an HTTP 500 error while the file already holds the appended notes. *)
Theorem add_notes_saves_before_processing
    request_notes self s existing sl tl ss ts r self' s' tp :
  run env (load_notes self) s = ((Ok existing, self), sl, tl) ->
  run env (save_notes (existing ++ request_notes) self) sl
  = ((Ok (), self), ss, ts) ->
  run env (process_notes (existing ++ request_notes) self) ss
  = ((r, self'), s', tp) ->
  existing = stored_notes (fs s)
  /\ fs ss = Holds {| doc_notes := Some (existing ++ request_notes) |}
  /\ fs s' = Holds {| doc_notes := Some (existing ++ request_notes) |}
  /\ exists out,
       run env (add_notes request_notes self) s
       = ((out, self'), s', tl ++ ts ++ tp)
       /\ match r with
          | Raise e =>
              out = Raise (HTTPException 500
                             (lit "Error adding notes: " ++ str_of_exn e))
          | Ok g =>
              exists response,
                out = Ok response
                /\ response_nodes response = nodes g
                /\ response_cluster_names response = cluster_names g
          end.
Proof.
  intros Hload Hsave Hprocess.
  destruct (run_load_notes _ _ _ _ _ _ Hload) as (Hexisting & _ & _).
  destruct (run_save_notes _ _ _ _ _ _ Hsave) as (Hfs & _ & _).
  pose proof (process_notes_frame (existing ++ request_notes) self ss) as Hframe.
  rewrite Hprocess in Hframe. destruct Hframe as (_ & _ & _ & Hfs').
  split; [done |]. split; [done |]. split; [congruence |].
  unfold add_notes. rewrite run_try_except.
  unfold mbind, M_bind. rewrite run_bind, Hload, run_bind, Hsave.
  rewrite run_bind, Hprocess.
  destruct r as [g | e]; cbn [run ret raise].
  - rewrite !app_nil_r. eexists. split; [reflexivity |]. eauto.
  - rewrite !app_nil_r. eauto.
Qed.

(** ** Reading and writing the notes file *)

Lemma run_load_notes_any self s :
  let '((r, self1), s1, t) := run env (load_notes self) s in
  self1 = self /\ s1 = s /\ forallb is_storage_call t = true
  /\ match fs s with
     | Absent => r = Ok [] /\ t = [Event NotesFileExists false]
     | Holds doc => r = Ok (default [] (doc_notes doc))
     | Garbled =>
         exists detail,
           r = Raise (HTTPException 500
                        (lit "Error loading notes: " ++ detail))
     end.
Proof.
  unfold load_notes. unfold_method. cbn [run pbind handle].
  destruct (fs s) as [| doc |] eqn:Hfs; cbn [negb run pbind handle];
    rewrite ?Hfs; cbn [run pbind]; repeat split; eauto.
Qed.

Lemma run_load_notes_readable self s :
  fs s <> Garbled ->
  exists t, run env (load_notes self) s
            = ((Ok (stored_notes (fs s)), self), s, t)
            /\ forallb is_storage_call t = true.
Proof.
  intros Hfs. pose proof (run_load_notes_any self s) as H.
  destruct (run env (load_notes self) s) as [[[r self1] s1] t].
  destruct H as (-> & -> & Ht & H). exists t. split; [| done].
  destruct (fs s) as [| doc |]; [by destruct H as [-> _] | by subst | done].
Qed.

Lemma run_load_notes_garbled self s :
  fs s = Garbled ->
  exists detail t,
    run env (load_notes self) s
    = ((Raise (HTTPException 500 (lit "Error loading notes: " ++ detail)),
        self), s, t)
    /\ forallb is_storage_call t = true.
Proof.
  intros Hfs. pose proof (run_load_notes_any self s) as H.
  destruct (run env (load_notes self) s) as [[[r self1] s1] t].
  destruct H as (-> & -> & Ht & H). rewrite Hfs in H.
  destruct H as [detail ->]. eauto.
Qed.

(** X1. [load_notes] changes neither the instance nor the system and calls
    the file system only.  A missing file is read as no notes, without
    being opened; an object without a ["notes"] entry is read as no notes
    too; unreadable content is reported as an HTTP 500 error. *)
Theorem load_notes_outcome self s :
  let '((r, self1), s1, t) := run env (load_notes self) s in
  self1 = self /\ s1 = s /\ forallb is_storage_call t = true
  /\ match fs s with
     | Absent => r = Ok [] /\ t = [Event NotesFileExists false]
     | Holds doc => r = Ok (default [] (doc_notes doc))
     | Garbled =>
         exists detail,
           r = Raise (HTTPException 500
                        (lit "Error loading notes: " ++ detail))
     end.
Proof. apply run_load_notes_any. Qed.

(** X2. What [save_notes] wrote is what [load_notes] reads back, from any
    later state in which the file is the one [save_notes] left. *)
Theorem save_then_load notes self s self1 s1 t self2 s2 :
  run env (save_notes notes self) s = ((Ok (), self1), s1, t) ->
  fs s2 = fs s1 ->
  (run env (load_notes self2) s2).1.1.1 = Ok notes.
Proof.
  intros Hsave Hfs.
  destruct (run_save_notes _ _ _ _ _ _ Hsave) as (Hheld & _ & _).
  destruct (run_load_notes_readable self2 s2) as (t2 & -> & _).
  { by rewrite Hfs, Hheld. }
  cbn [fst]. by rewrite Hfs, Hheld.
Qed.

(** X3. [save_notes] never changes the instance.  When it returns, the
    data directory was made (or was there), and the file holds the notes
    given.  When it raises, it is in one of two ways: if the data
    directory cannot be made, the exception of [mkdir] leaves the function
    as it is, nothing is written and the file is untouched; if the
    directory is there and writing fails, the exception of the write is
    turned into an HTTP 500 error "Error saving notes: ..." that carries
    its text. *)
Theorem save_notes_outcome notes self s :
  let '((r, self1), s1, t) := run env (save_notes notes self) s in
  self1 = self
  /\ match r with
     | Ok _ =>
         (mkdir env (world s)).1 = Ok ()
         /\ fs s1 = Holds {| doc_notes := Some notes |}
         /\ exists made, t = [Event MkdirDataDir made;
                              Event (WriteNotesFile notes) (Ok ())]
     | Raise e =>
         (mkdir env (world s)).1 = Raise e
         /\ t = [Event MkdirDataDir (Raise e)] /\ fs s1 = fs s
         \/ (mkdir env (world s)).1 = Ok ()
            /\ exists e0 made,
                 e = HTTPException 500 (lit "Error saving notes: "
                                         ++ str_of_exn e0)
                 /\ t = [Event MkdirDataDir made;
                         Event (WriteNotesFile notes) (Raise e0)]
     end.
Proof.
  unfold save_notes. unfold_method. cbn [run pbind handle].
  destruct (mkdir env (world s)) as [[[] | e1] w1];
    cbn [fst snd run pbind handle world].
  - destruct (open_write env w1) as [[| e0 | e0] w2]; cbn [run pbind fs];
      (split; [done |]); [eauto | right; eauto 10 ..].
  - split; [done |]. by left.
Qed.

(** ** [POST /notes] *)

Lemma run_save_notes_self notes self s :
  (run env (save_notes notes self) s).1.1.2 = self.
Proof.
  unfold save_notes. unfold_method. cbn [run pbind handle].
  destruct (mkdir env (world s)) as [[[] | e1] w1];
    cbn [fst snd run pbind handle world]; [| done].
  by destruct (open_write env w1) as [[| e0 | e0] w2].
Qed.

Lemma run_add_notes request_notes self s :
  let wrap e :=
    HTTPException 500 (lit "Error adding notes: " ++ str_of_exn e) in
  run env (add_notes request_notes self) s =
  let '((rl, _), _, tl) := run env (load_notes self) s in
  match rl with
  | Raise e => ((Raise (wrap e), self), s, tl)
  | Ok loaded =>
      let existing_notes := loaded ++ request_notes in
      let '((rs, _), ss, ts) := run env (save_notes existing_notes self) s in
      match rs with
      | Raise e => ((Raise (wrap e), self), ss, tl ++ ts)
      | Ok _ =>
          let '((rp, self'), s', tp) :=
            run env (process_notes existing_notes self) ss in
          ((match rp with
            | Ok g =>
                Ok {| message := lit "Added "
                                 ++ of_int (Z.of_nat (length request_notes))
                                 ++ lit " note(s)";
                      total_notes := Z.of_nat (length existing_notes);
                      response_nodes := nodes g;
                      response_cluster_names := cluster_names g |}
            | Raise e => Raise (wrap e)
            end, self'), s', tl ++ ts ++ tp)
      end
  end.
Proof.
  intros wrap. unfold add_notes. rewrite run_try_except.
  unfold mbind, M_bind. rewrite run_bind.
  pose proof (run_load_notes_any self s) as Hl.
  destruct (run env (load_notes self) s) as [[[rl self1] s1] tl].
  destruct Hl as (-> & -> & _).
  destruct rl as [loaded | e]; cbn [run raise]; [| by rewrite app_nil_r].
  rewrite run_bind.
  pose proof (run_save_notes_self (loaded ++ request_notes) self s) as Hs.
  destruct (run env (save_notes _ self) s) as [[[rs self2] ss] ts].
  cbn [fst snd] in Hs. subst self2.
  destruct rs as [[] | e]; cbn [run raise]; [| by rewrite app_nil_r].
  rewrite run_bind.
  destruct (run env (process_notes _ self) ss) as [[[rp self'] s'] tp].
  destruct rp as [g | e]; cbn [run ret raise]; by rewrite !app_nil_r.
Qed.

(** X4. Whatever goes wrong in [add_notes], the exception that leaves it
    is an HTTP 500 error whose detail is "Error adding notes: " followed
    by the text of the exception that was caught, and that exception is
    the one raised by [load_notes], or else by [save_notes] on the stored
    notes followed by the request's, or else by [process_notes] on that
    list in the state that saving left. *)
Theorem add_notes_raises_http_500 request_notes self s e self' s' t :
  run env (add_notes request_notes self) s = ((Raise e, self'), s', t) ->
  exists cause,
    e = HTTPException 500 (lit "Error adding notes: " ++ str_of_exn cause)
    /\ ((run env (load_notes self) s).1.1.1 = Raise cause
        \/ (run env (load_notes self) s).1.1.1 = Ok (stored_notes (fs s))
           /\ let existing_notes := stored_notes (fs s) ++ request_notes in
              let saved := run env (save_notes existing_notes self) s in
              (saved.1.1.1 = Raise cause
               \/ saved.1.1.1 = Ok ()
                  /\ (run env (process_notes existing_notes self)
                          saved.1.2).1.1.1 = Raise cause)).
Proof.
  rewrite run_add_notes. cbv zeta.
  destruct (run env (load_notes self) s) as [[[rl self1] s1] tl] eqn:Hload.
  destruct rl as [loaded | e1]; [| intros [= <- _ _ _]; eauto].
  destruct (run_load_notes _ _ _ _ _ _ Hload) as (-> & _ & _).
  destruct (run env (save_notes _ self) s) as [[[rs self2] ss] ts].
  cbn [fst snd].
  destruct rs as [[] | e1]; [| intros [= <- _ _ _]; eauto 10].
  destruct (run env (process_notes _ self) ss) as [[[rp self3] s3] tp].
  destruct rp as [g | e1]; [done | intros [= <- _ _ _]; eauto 10].
Qed.

(** X5. When the notes file cannot be read, [add_notes] gives up before it
    writes: the file, the world and the instance stay as they were, only
    the file system was called, and the error names both layers:
    "Error adding notes: 500: Error loading notes: ...". *)
Theorem add_notes_unreadable_store request_notes self s :
  fs s = Garbled ->
  exists detail t,
    run env (add_notes request_notes self) s
    = ((Raise (HTTPException 500
                 (lit "Error adding notes: 500: Error loading notes: "
                  ++ detail)), self), s, t)
    /\ forallb is_storage_call t = true.
Proof.
  intros Hfs. rewrite run_add_notes. cbv zeta.
  destruct (run_load_notes_garbled self s Hfs) as (detail & t & -> & Ht).
  exists detail, t. split; [reflexivity | done].
Qed.

Lemma add_notes_returns request_notes self s response self' s' t :
  run env (add_notes request_notes self) s = ((Ok response, self'), s', t) ->
  let existing_notes := stored_notes (fs s) ++ request_notes in
  exists ss g tl ts tp,
    run env (save_notes existing_notes self) s = ((Ok (), self), ss, ts)
    /\ run env (process_notes existing_notes self) ss
       = ((Ok g, self'), s', tp)
    /\ t = tl ++ ts ++ tp
    /\ forallb is_storage_call (tl ++ ts) = true
    /\ response
       = {| message := lit "Added "
                       ++ of_int (Z.of_nat (length request_notes))
                       ++ lit " note(s)";
            total_notes := Z.of_nat (length existing_notes);
            response_nodes := nodes g;
            response_cluster_names := cluster_names g |}.
Proof.
  rewrite run_add_notes. cbv zeta.
  pose proof (run_load_notes_any self s) as Hl.
  destruct (run env (load_notes self) s) as [[[rl self1] s1] tl] eqn:Hload.
  destruct Hl as (-> & -> & Htl & _).
  destruct rl as [loaded | e1]; [| done].
  destruct (run_load_notes _ _ _ _ _ _ Hload) as (-> & _ & _).
  pose proof (run_save_notes_self (stored_notes (fs s) ++ request_notes)
                self s) as Hs.
  destruct (run env (save_notes _ self) s) as [[[rs self2] ss] ts] eqn:Hsave.
  cbn [fst snd] in Hs. subst self2.
  destruct rs as [[] | e1]; [| done].
  destruct (run env (process_notes _ self) ss)
    as [[[rp self3] s3] tp] eqn:Hprocess.
  destruct rp as [g | e1]; [| done].
  intros [= <- <- <- <-]. exists ss, g, tl, ts, tp.
  do 3 (split; [done |]). split; [| done].
  destruct (run_save_notes _ _ _ _ _ _ Hsave) as (_ & _ & made & ->).
  by rewrite forallb_app, Htl.
Qed.

(** X6. When [add_notes] returns, the file holds the stored notes followed by
    the request's notes, [total_notes] is their number, and the response
    has one node per note of that list, in order: node [i] has [id = i]
    and the i-th text as label. *)
Theorem add_notes_response request_notes self s response self' s' t :
  run env (add_notes request_notes self) s = ((Ok response, self'), s', t) ->
  let existing_notes := stored_notes (fs s) ++ request_notes in
  fs s' = Holds {| doc_notes := Some existing_notes |}
  /\ total_notes response = Z.of_nat (length existing_notes)
  /\ map label (response_nodes response) = existing_notes
  /\ map id (response_nodes response)
     = map Z.of_nat (seq 0 (length existing_notes))
  /\ message response
     = lit "Added " ++ of_int (Z.of_nat (length request_notes))
       ++ lit " note(s)".
Proof.
  intros Hrun existing_notes.
  destruct (add_notes_returns _ _ _ _ _ _ _ Hrun)
    as (ss & g & tl & ts & tp & Hsave & Hprocess & _ & _ & ->).
  fold existing_notes in Hsave, Hprocess.
  destruct (run_save_notes _ _ _ _ _ _ Hsave) as (Hfs & _ & _).
  pose proof (process_notes_frame existing_notes self ss) as Hframe.
  rewrite Hprocess in Hframe. destruct Hframe as (_ & _ & _ & Hfs').
  split; [congruence |]. split; [done |]. cbn [response_nodes message].
  destruct (decide (existing_notes = [])) as [Hnil | Hne].
  - rewrite Hnil in *. by injection Hprocess as <- _ _ _.
  - destruct (process_notes_returns _ _ _ _ _ _ _ Hne Hprocess)
      as (embeddings & labels & coords_3d & names & _ & _ & _ & Hnodes & _).
    destruct (nodes_from_Ok _ _ _ _ _ _ Hnodes) as (Hid & Hlabel & _ & _).
    done.
Qed.

(** ** [GET /nodes] and [POST /process] *)

Lemma galaxy_eta (g : Galaxy Float) :
  {| nodes := nodes g; cluster_names := cluster_names g |} = g.
Proof. by destruct g. Qed.

Lemma run_get_nodes self s :
  run env (Routes.get_nodes self) s =
  let '((rl, _), _, tl) := run env (load_notes self) s in
  match rl with
  | Raise e => ((Raise e, self), s, tl)
  | Ok [] => ((Ok {| nodes := []; cluster_names := ∅ |}, self), s, tl)
  | Ok (note :: rest) =>
      let '((rp, self'), s', tp) :=
        run env (process_notes (note :: rest) self) s in
      ((match rp with
        | Ok g => Ok g
        | Raise e =>
            Raise (HTTPException 500
                     (lit "Error processing nodes: " ++ str_of_exn e))
        end, self'), s', tl ++ tp)
  end.
Proof.
  unfold Routes.get_nodes. unfold mbind, M_bind. rewrite run_bind.
  pose proof (run_load_notes_any self s) as Hl.
  destruct (run env (load_notes self) s) as [[[rl self1] s1] tl].
  destruct Hl as (-> & -> & _).
  destruct rl as [[| note rest] | e]; [by cbn; rewrite app_nil_r | | done].
  rewrite run_try_except, run_bind.
  destruct (run env (process_notes _ self) s) as [[[rp self'] s'] tp].
  destruct rp as [g | e]; cbn [run ret raise]; rewrite !app_nil_r;
    by rewrite ?galaxy_eta.
Qed.

Lemma run_process_endpoint request_notes self s :
  run env (Routes.process_notes request_notes self) s =
  let '((rp, self'), s', tp) := run env (process_notes request_notes self) s in
  ((match rp with
    | Ok g => Ok g
    | Raise e =>
        Raise (HTTPException 500
                 (lit "Error processing notes: " ++ str_of_exn e))
    end, self'), s', tp).
Proof.
  unfold Routes.process_notes. rewrite run_try_except.
  unfold mbind, M_bind. rewrite run_bind.
  destruct (run env (process_notes _ self) s) as [[[rp self'] s'] tp].
  destruct rp as [g | e]; cbn [run ret raise]; rewrite !app_nil_r;
    by rewrite ?galaxy_eta.
Qed.

(** X7. With no stored note (no file, no ["notes"] entry or an empty list),
    [get_nodes] answers with the empty galaxy after calling the file
    system only; instance and system are unchanged. *)
Theorem get_nodes_empty_store self s :
  fs s <> Garbled ->
  stored_notes (fs s) = [] ->
  exists t,
    run env (Routes.get_nodes self) s
    = ((Ok {| nodes := []; cluster_names := ∅ |}, self), s, t)
    /\ forallb is_storage_call t = true.
Proof.
  intros Hfs Hnone. rewrite run_get_nodes.
  destruct (run_load_notes_readable self s Hfs) as (t & -> & Ht).
  rewrite Hnone. eauto.
Qed.

(** X8. [get_nodes] never changes the notes file.  It returns either
    the empty galaxy, when the store holds no note, or what
    [process_notes] returns on the stored notes.  An exception that leaves
    it is an HTTP 500 error: "Error loading notes: ..." when the file
    could not be read ([load_notes] is outside the [try], so the error is
    not wrapped again; nothing but the file system was called and nothing
    changed), or "Error processing nodes: ..." with the text of the
    exception that [process_notes] raised on the stored notes. *)
Theorem get_nodes_outcome self s :
  let '((r, self'), s', t) := run env (Routes.get_nodes self) s in
  fs s' = fs s
  /\ match r with
     | Ok g =>
         fs s <> Garbled
         /\ (stored_notes (fs s) = []
             /\ g = {| nodes := []; cluster_names := ∅ |}
             /\ self' = self /\ s' = s
             \/ stored_notes (fs s) <> []
                /\ exists tl tp,
                     run env (process_notes (stored_notes (fs s)) self) s
                     = ((Ok g, self'), s', tp)
                     /\ t = tl ++ tp
                     /\ forallb is_storage_call tl = true)
     | Raise e =>
         fs s = Garbled
         /\ (exists detail,
               e = HTTPException 500 (lit "Error loading notes: " ++ detail))
         /\ forallb is_storage_call t = true /\ s' = s /\ self' = self
         \/ exists cause tl tp,
              e = HTTPException 500
                    (lit "Error processing nodes: " ++ str_of_exn cause)
              /\ run env (process_notes (stored_notes (fs s)) self) s
                 = ((Raise cause, self'), s', tp)
              /\ t = tl ++ tp
              /\ forallb is_storage_call tl = true
     end.
Proof.
  rewrite run_get_nodes.
  pose proof (run_load_notes_any self s) as Hl.
  destruct (run env (load_notes self) s) as [[[rl self1] s1] tl] eqn:Hload.
  destruct Hl as (-> & -> & Htl & Hl).
  destruct rl as [loaded | e1].
  - destruct (run_load_notes _ _ _ _ _ _ Hload) as (Hstored & _ & _).
    assert (Hfs : fs s <> Garbled).
    { intros Hg. rewrite Hg in Hl. by destruct Hl. }
    rewrite <- Hstored. destruct loaded as [| note rest].
    + split; [done |]. split; [done |]. by left.
    + pose proof (process_notes_frame (note :: rest) self s) as Hframe.
      destruct (run env (process_notes (note :: rest) self) s)
        as [[[rp selfp] sp] tp].
      destruct Hframe as (_ & _ & _ & Hfs').
      split; [done |]. destruct rp as [g | cause].
      * split; [done |]. right. split; [done |]. by exists tl, tp.
      * right. by exists cause, tl, tp.
  - split; [done |]. left.
    destruct (fs s) as [| doc |]; [by destruct Hl | done |].
    destruct Hl as [detail [= ->]]. eauto 10.
Qed.

(** X9. [POST /process] returns what [GalaxyRenderer.process_notes] returns
    and turns whatever it raises into an HTTP 500 error "Error processing
    notes: ..."; it makes the same calls, leaves the same instance and
    never touches the notes file. *)
Theorem process_endpoint_outcome request_notes self s :
  let '((r, self'), s', t) :=
    run env (Routes.process_notes request_notes self) s in
  let '((rp, selfp), sp, tp) :=
    run env (process_notes request_notes self) s in
  self' = selfp /\ s' = sp /\ t = tp /\ fs s' = fs s
  /\ match rp with
     | Ok g => r = Ok g
     | Raise e =>
         r = Raise (HTTPException 500
                      (lit "Error processing notes: " ++ str_of_exn e))
     end.
Proof.
  rewrite run_process_endpoint.
  pose proof (process_notes_frame request_notes self s) as Hframe.
  destruct (run env (process_notes _ self) s) as [[[rp self'] s'] tp].
  destruct Hframe as (_ & _ & _ & Hfs). by destruct rp.
Qed.

Lemma layout_same_config notes self1 self2 :
  model self1 = model self2 -> n_clusters self1 = n_clusters self2 ->
  layout env self1 notes = layout env self2 notes.
Proof. intros Hm Hk. unfold layout, kmeans_config. by rewrite Hm, Hk. Qed.

Lemma layout_of_Ok (r : result (Galaxy Float)) g :
  layout_of r = layout_of (Ok g) ->
  exists g', r = Ok g' /\ assignments g' = assignments g
             /\ coordinates g' = coordinates g.
Proof. destruct r as [g' | e]; [intros [= ? ?]; eauto | done]. Qed.

Lemma process_notes_ids_labels notes self s g self' s' t :
  run env (process_notes notes self) s = ((Ok g, self'), s', t) ->
  map id (nodes g) = map Z.of_nat (seq 0 (length notes))
  /\ map label (nodes g) = notes.
Proof.
  intros Hrun. destruct (decide (notes = [])) as [-> | Hne].
  { by injection Hrun as <- _ _ _. }
  destruct (process_notes_returns _ _ _ _ _ _ _ Hne Hrun)
    as (embeddings & labels & coords_3d & names & _ & _ & _ & Hnodes & _).
  by destruct (nodes_from_Ok _ _ _ _ _ _ Hnodes) as (Hid & Hlabel & _ & _).
Qed.

(** X10. After [add_notes] has returned, [get_nodes] on the instance it left,
    in any later state with the same notes file, returns too, and its
    nodes have the ids, labels, categories and coordinates of the nodes
    that [add_notes] returned. *)
Theorem get_nodes_after_add_notes
    request_notes self s response self1 s1 t1 s2 :
  run env (add_notes request_notes self) s = ((Ok response, self1), s1, t1) ->
  fs s2 = fs s1 ->
  exists g self2 s3 t2,
    run env (Routes.get_nodes self1) s2 = ((Ok g, self2), s3, t2)
    /\ map id (nodes g) = map id (response_nodes response)
    /\ map label (nodes g) = map label (response_nodes response)
    /\ map category (nodes g) = map category (response_nodes response)
    /\ map (fun n => (x n, y n, z n)) (nodes g)
       = map (fun n => (x n, y n, z n)) (response_nodes response).
Proof.
  intros Hadd Hfs.
  destruct (add_notes_returns _ _ _ _ _ _ _ Hadd)
    as (ss & g1 & tl & ts & tp & Hsave & Hprocess & _ & _ & ->).
  cbn [response_nodes].
  destruct (run_save_notes _ _ _ _ _ _ Hsave) as (Hheld & _ & _).
  pose proof (process_notes_frame
                (stored_notes (fs s) ++ request_notes) self ss) as Hframe.
  rewrite Hprocess in Hframe. destruct Hframe as (Hm & Hk & _ & Hfs1).
  assert (Hstored : fs s2 = Holds {| doc_notes := Some (stored_notes (fs s)
                                                       ++ request_notes) |})
    by congruence.
  rewrite run_get_nodes.
  destruct (run_load_notes_readable self1 s2) as (t2 & -> & _).
  { by rewrite Hstored. }
  rewrite Hstored.
  change (stored_notes (Holds _))
    with (stored_notes (fs s) ++ request_notes).
  set (all := stored_notes (fs s) ++ request_notes) in *.
  destruct all as [| note rest] eqn:Hall.
  { injection Hprocess as <- _ _ _. eauto 10. }
  pose proof (process_notes_layout (note :: rest) self1 s2) as Hl2.
  pose proof (process_notes_layout (note :: rest) self ss) as Hl1.
  rewrite Hprocess in Hl1. cbn [fst] in Hl1.
  rewrite (layout_same_config _ self1 self) in Hl2 by done.
  rewrite <- Hl1 in Hl2.
  destruct (run env (process_notes (note :: rest) self1) s2)
    as [[[r2 self2] s3] tp2] eqn:Hp2.
  cbn [fst] in Hl2. destruct (layout_of_Ok _ _ Hl2) as (g2 & -> & Ha & Hc).
  destruct (process_notes_ids_labels _ _ _ _ _ _ _ Hp2) as [Hid2 Hlab2].
  destruct (process_notes_ids_labels _ _ _ _ _ _ _ Hprocess) as [Hid1 Hlab1].
  exists g2, self2, s3, (t2 ++ tp2). split; [done |].
  split; [congruence |]. split; [congruence |]. done.
Qed.

(** ** Building the instance *)

(** X11. [__init__] raises only if the model cannot be loaded, and then asks
    for nothing else.  Otherwise it returns an instance with the loaded
    model, the given cluster count and no estimator handle; a client is
    kept only if a non-empty key was found and the [Groq] constructor
    returned it, so a failure of that constructor never prevents the
    instance from being built.  The notes file is not touched. *)
Theorem init_outcome model_name k s :
  let '(r, s1, t) := run env (__init__ model_name k) s in
  fs s1 = fs s
  /\ match (load_model env model_name (world s)).1 with
     | Raise e =>
         r = Raise e /\ t = [Event (SentenceTransformer model_name) (Raise e)]
     | Ok m =>
         exists self,
           r = Ok self /\ model self = m /\ n_clusters self = k
           /\ kmeans self = None /\ umap_reducer self = None
           /\ forall client,
                groq_client self = Some client <->
                exists key,
                  credential_at_init env model_name s = Some key
                  /\ key <> []
                  /\ (new_client env key
                        (load_model env model_name (world s)).2).1
                     = Ok client
     end.
Proof.
  unfold credential_at_init, __init__. cbn [run handle].
  destruct (load_model env model_name (world s)) as [[m | e] w1];
    cbn [fst snd run handle world]; [| done].
  destruct (environ env (lit "GROQ_API_KEY") w1) as [[| c key] |];
    cbn [run handle fst snd world].
  - split; [done |]. eexists. do 5 (split; [reflexivity |]).
    intros client. split; [done |]. by intros (key & [= <-] & ? & _).
  - destruct (new_client env (c :: key) w1) as [[client0 | e] w2] eqn:Hnew;
      cbn [run fst snd]; (split; [done |]); eexists;
      do 5 (split; [reflexivity |]); intros client; cbn [groq_client].
    + split.
      * intros [= <-]. exists (c :: key). by rewrite Hnew.
      * intros (key' & [= <-] & _ & H). rewrite Hnew in H. by injection H as ->.
    + split; [done |]. intros (key' & [= <-] & _ & H). by rewrite Hnew in H.
  - split; [done |]. eexists. do 5 (split; [reflexivity |]).
    intros client. split; [done |]. by intros (key & ? & _).
Qed.

(** ** The notes of each cluster *)

Lemma zip_with_cons_other (l : Z) (note : str) cs (groups : list (list str)) :
  l ∉ cs -> length cs = length groups ->
  zip_with (fun c grp => if l =? c then note :: grp else grp) cs groups
  = groups.
Proof.
  revert groups. induction cs as [| c cs IH]; intros [| g gs] Hl Hlen;
    try done.
  cbn [zip_with]. apply not_elem_of_cons in Hl as [Hne Hl].
  rewrite (proj2 (Z.eqb_neq l c)) by done. f_equal. apply IH; [done |].
  by injection Hlen.
Qed.

Lemma concat_zip_with_cons_one (l : Z) (note : str) cs
    (groups : list (list str)) :
  NoDup cs -> l ∈ cs -> length cs = length groups ->
  concat (zip_with (fun c grp => if l =? c then note :: grp else grp)
                   cs groups)
  ≡ₚ note :: concat groups.
Proof.
  revert groups. induction cs as [| c cs IH]; intros [| g gs] Hnd Hl Hlen;
    try done.
  { by apply elem_of_nil in Hl. }
  apply NoDup_cons in Hnd as [Hc Hnd]. injection Hlen as Hlen.
  cbn [zip_with concat]. destruct (Z.eqb_spec l c) as [-> | Hne].
  - by rewrite zip_with_cons_other.
  - apply elem_of_cons in Hl as [? | Hl]; [done |].
    rewrite IH by done. by rewrite Permutation_middle.
Qed.

Lemma cluster_notes_partition labels cs i notes :
  NoDup cs -> (forall c, c ∈ labels -> c ∈ cs) ->
  (i + length notes <= length labels)%nat ->
  exists groups,
    Forall2 (fun c grp => cluster_notes_from labels c i notes = Ok grp)
            cs groups
    /\ concat groups ≡ₚ notes.
Proof.
  intros Hnd Hcover. revert i.
  induction notes as [| note rest IH]; intros i Hlen.
  - exists (map (fun _ => []) cs). split.
    + clear. induction cs; by constructor.
    + clear. by induction cs.
  - destruct (lookup_lt_is_Some_2 labels i) as [l Hl];
      [simpl in Hlen; lia |].
    destruct (IH (S i)) as (groups & Hall & Hperm); [simpl in *; lia |].
    exists (zip_with (fun c grp => if l =? c then note :: grp else grp)
                     cs groups).
    split.
    + clear -Hall Hl. induction Hall as [| c grp cs groups Hc Hall IH];
        cbn [zip_with]; constructor; [| done].
      cbn [cluster_notes_from]. unfold mbind, result_bind, index.
      by rewrite Hl, Hc.
    + rewrite concat_zip_with_cons_one; [by rewrite Hperm | done | |].
      * apply Hcover. by eapply list_elem_of_lookup_2.
      * by eapply Forall2_length.
Qed.

(** X12. When there is a label for every note, the note lists that
    [_name_clusters] builds for the distinct cluster ids make up the notes
    exactly: every note is in the list of one cluster and of no other. *)
Theorem every_note_in_one_cluster labels notes :
  (length notes <= length labels)%nat ->
  exists groups,
    Forall2 (fun c grp => cluster_notes_from labels c 0 notes = Ok grp)
            (unique_clusters labels) groups
    /\ concat groups ≡ₚ notes.
Proof.
  intros Hlen. apply cluster_notes_partition; [| | done].
  - apply NoDup_unique_clusters.
  - intros c. apply elem_of_unique_clusters.
Qed.

(** ** The words of a title *)

Lemma split_from_words cur (txt : str) :
  Forall (fun c => isspace c = false) cur ->
  Forall word (split_from cur txt).
Proof.
  revert cur. induction txt as [| c txt IH]; intros cur Hcur;
    cbn [split_from].
  - destruct cur as [| c0 cur]; constructor; [| done]. split.
    + intros H. apply (f_equal (@length N)) in H.
      rewrite length_rev in H. done.
    + by apply List.Forall_rev.
  - destruct (isspace c) eqn:Hc.
    + destruct cur as [| c0 cur]; [by apply IH |].
      constructor; [| by apply IH]. split.
      * intros H. apply (f_equal (@length N)) in H.
        rewrite length_rev in H. done.
      * by apply List.Forall_rev.
    + apply IH. by constructor.
Qed.

Lemma split_from_word_prefix w cur (txt : str) :
  Forall (fun c => isspace c = false) w ->
  split_from cur (w ++ txt) = split_from (rev w ++ cur) txt.
Proof.
  revert cur. induction w as [| c w IH]; intros cur Hw; [done |].
  apply Forall_cons in Hw as [Hc Hw].
  cbn [app split_from rev]. rewrite Hc, IH by done.
  by rewrite <- app_assoc.
Qed.

Lemma split_one_word w : word w -> split w = [w].
Proof.
  intros [Hne Hw]. unfold split.
  rewrite <- (app_nil_r w) at 1. rewrite split_from_word_prefix by done.
  rewrite app_nil_r. cbn [split_from].
  destruct (rev w) as [| c r] eqn:Hr.
  - apply (f_equal (@length N)) in Hr. rewrite length_rev in Hr.
    by destruct w.
  - by rewrite <- Hr, rev_involutive.
Qed.

Lemma split_two_words w1 w2 :
  word w1 -> word w2 -> split (w1 ++ [SPACE] ++ w2) = [w1; w2].
Proof.
  intros [Hne1 Hw1] Hw2. unfold split.
  rewrite split_from_word_prefix by done. rewrite app_nil_r.
  cbn [app split_from].
  change (isspace SPACE) with true. cbv iota.
  destruct (rev w1) as [| c r] eqn:Hr.
  - apply (f_equal (@length N)) in Hr. rewrite length_rev in Hr.
    by destruct w1.
  - rewrite <- Hr, rev_involutive. f_equal. by apply split_one_word.
Qed.

Lemma title_of_content_words content name :
  title_of_content content = Ok name ->
  exists w1 ws,
    split (strip (first_line (strip content))) = w1 :: ws /\ word w1
    /\ match ws with
       | [] => name = w1
       | w2 :: _ => word w2 /\ name = w1 ++ [SPACE] ++ w2
       end.
Proof.
  unfold title_of_content.
  pose proof (split_from_words [] (strip (first_line (strip content)))
                ltac:(constructor)) as Hwords.
  fold (split (strip (first_line (strip content)))) in Hwords.
  destruct (split (strip (first_line (strip content))))
    as [| w1 [| w2 ws]]; [done | |].
  - intros [= <-]. apply Forall_cons in Hwords as [Hw1 _]. by exists w1, [].
  - intros [= <-]. apply Forall_cons in Hwords as [Hw1 Hwords].
    apply Forall_cons in Hwords as [Hw2 _]. by exists w1, (w2 :: ws).
Qed.

(** X14. A title read from a reply is made of the first one or two words of
    the reply's first line and of nothing else: splitting it gives these
    words back, joining them with one space gives the title, and it is
    never empty. *)
Theorem title_is_one_or_two_words content name :
  title_of_content content = Ok name ->
  split name = take 2 (split (strip (first_line (strip content))))
  /\ (1 <= length (split name) <= 2)%nat
  /\ join [SPACE] (split name) = name
  /\ name <> [].
Proof.
  intros (w1 & ws & -> & Hw1 & Hname)%title_of_content_words.
  destruct ws as [| w2 ws].
  - subst name. rewrite split_one_word by done. cbn.
    repeat split; try lia. by destruct Hw1.
  - destruct Hname as [Hw2 ->]. rewrite split_two_words by done. cbn.
    repeat split; try lia. destruct Hw1 as [Hne _]. by destruct w1.
Qed.

Lemma generic_name_nonempty c : generic_name c <> [].
Proof. done. Qed.

Lemma name_of_answer_cases c a :
  name_of_answer c a = generic_name c
  \/ exists content, title_of_content content = Ok (name_of_answer c a).
Proof.
  unfold name_of_answer. destruct a as [content | e]; [| by left].
  destruct (title_of_content content) eqn:Ht; [| by left].
  right. by exists content.
Qed.

Lemma store_names_lookup_inv names cs answers c name :
  store_names names cs answers !! c = Some name ->
  names !! c = Some name \/ exists a, name = name_of_answer c a.
Proof.
  revert names answers. induction cs as [| c0 cs IH]; intros names answers;
    [by left |].
  destruct answers as [| a answers]; [by left |].
  rewrite store_names_cons. intros [H | H]%IH; [| by right].
  destruct (decide (c0 = c)) as [-> | Hne].
  - rewrite lookup_insert_eq in H. injection H as <-. right. by exists a.
  - rewrite lookup_insert_ne in H by done. by left.
Qed.

(** ** Nodes, names and handles of a result *)

Lemma map_int_id (labels : list Z) : map int_ labels = labels.
Proof. induction labels as [| l labels IH]; [done |]. simpl. by rewrite IH. Qed.

Lemma nodes_from_lookup labels (coords : list (list Float)) names i notes ns :
  nodes_from labels coords names i notes = Ok ns ->
  forall j n, ns !! j = Some n ->
    labels !! (i + j)%nat = Some (category n)
    /\ exists row,
         coords !! (i + j)%nat = Some row
         /\ row !! 0%nat = Some (x n) /\ row !! 1%nat = Some (y n)
         /\ row !! 2%nat = Some (z n).
Proof.
  revert i ns. induction notes as [| note rest IH]; intros i ns.
  - by intros [= <-] j n Hj.
  - cbn [nodes_from]. unfold mbind, result_bind. intros H.
    destruct (index labels i) as [c | e] eqn:Hc; [| done].
    destruct (index coords i) as [row | e] eqn:Hrow; [| done].
    destruct (index row 0) as [cx | e] eqn:Hx; [| done].
    destruct (index row 1) as [cy | e] eqn:Hy; [| done].
    destruct (index row 2) as [cz | e] eqn:Hz; [| done].
    destruct (nodes_from labels coords names (S i) rest) as [more | e] eqn:Hm;
      [| done].
    injection H as <-. apply index_Ok in Hc, Hrow, Hx, Hy, Hz.
    intros [| j] n Hj.
    + injection Hj as <-. rewrite Nat.add_0_r. cbn. eauto 10.
    + rewrite Nat.add_succ_r. by apply (IH (S i) more Hm j n).
Qed.

Lemma returned_names notes self s g self' s' t :
  notes <> [] ->
  run env (process_notes notes self) s = ((Ok g, self'), s', t) ->
  exists labels coords_3d,
    kmeans self' = Some {| km_params := kmeans_config self;
                           km_labels_ := Some labels |}
    /\ umap_reducer self' = Some {| um_params := umap_config notes;
                                   um_embedding_ := Some coords_3d |}
    /\ nodes_from labels coords_3d (cluster_names g) 0 notes = Ok (nodes g)
    /\ (forall c, is_Some (cluster_names g !! c) <-> c ∈ labels)
    /\ (forall c name, cluster_names g !! c = Some name ->
          name = generic_name c \/ exists a, name = name_of_answer c a).
Proof.
  intros Hne Hrun.
  destruct (process_notes_returns _ _ _ _ _ _ _ Hne Hrun)
    as (embeddings & labels & coords_3d & names
        & _ & _ & _ & Hnodes & -> & Hkm & Hum & Hnames).
  rewrite map_int_id in Hnodes, Hnames.
  exists labels, coords_3d. do 3 (split; [done |]).
  pose proof (NoDup_unique_clusters labels) as Hnd.
  destruct (groq_client self) as [client |].
  - destruct Hnames as [Hlen ->]. split.
    + intros c. split.
      * intros H. apply store_names_keys in H; [| done ..].
        by apply (proj1 (elem_of_unique_clusters c labels)).
      * intros H. apply store_names_keys; [done ..|].
        by apply (proj2 (elem_of_unique_clusters c labels)).
    + intros c name [H | H]%store_names_lookup_inv; [| by right].
      by rewrite lookup_empty in H.
  - destruct Hnames as [_ ->]. split.
    + intros c. split.
      * intros [name H]. rewrite generic_names_lookup in H.
        destruct (decide (c ∈ unique_clusters labels)) as [Hin |]; [| done].
        by apply (proj1 (elem_of_unique_clusters c labels)).
      * intros Hin. rewrite generic_names_lookup, decide_True; [by eexists |].
        by apply (proj2 (elem_of_unique_clusters c labels)).
    + intros c name. rewrite generic_names_lookup.
      destruct (decide _); [| done]. intros [= <-]. by left.
Qed.

(** X15. In a result of [process_notes] no cluster has an empty name: every
    name is the placeholder of its cluster or a title of one or two words
    read from a reply. *)
Theorem cluster_names_are_not_empty notes self s g self' s' t :
  run env (process_notes notes self) s = ((Ok g, self'), s', t) ->
  forall c name, cluster_names g !! c = Some name ->
    name <> []
    /\ (name = generic_name c
        \/ exists content, title_of_content content = Ok name).
Proof.
  intros Hrun c name Hname. destruct (decide (notes = [])) as [-> | Hne].
  { injection Hrun as <- _ _ _. cbn [cluster_names] in Hname.
    by rewrite lookup_empty in Hname. }
  destruct (returned_names _ _ _ _ _ _ _ Hne Hrun)
    as (labels & coords_3d & _ & _ & _ & _ & Hform).
  assert (Hcases : name = generic_name c
                   \/ exists content, title_of_content content = Ok name).
  { destruct (Hform c name Hname) as [-> | [a ->]]; [by left |].
    apply name_of_answer_cases. }
  split; [| done]. destruct Hcases as [-> | [content Ht]].
  - apply generic_name_nonempty.
  - by apply title_of_content_words in Ht
      as (w1 & [| w2 ws] & _ & [Hw1 _] & Hn);
      [subst | destruct Hn as [_ ->]; destruct w1].
Qed.

(** X16. In a result of [process_notes] the [cluster_label] of every node is
    the name that [cluster_names] gives to the node's category: the
    placeholder used for a missing key at line 155 is never needed. *)
Theorem node_labels_match_names notes self s g self' s' t :
  run env (process_notes notes self) s = ((Ok g, self'), s', t) ->
  forall n, n ∈ nodes g ->
    cluster_names g !! category n = Some (cluster_label n).
Proof.
  intros Hrun n Hn. destruct (decide (notes = [])) as [-> | Hne].
  { injection Hrun as <- _ _ _. by apply elem_of_nil in Hn. }
  destruct (returned_names _ _ _ _ _ _ _ Hne Hrun)
    as (labels & coords_3d & _ & _ & Hnodes & Hkeys & _).
  destruct (nodes_from_Ok _ _ _ _ _ _ Hnodes) as (_ & _ & _ & Hall).
  rewrite Forall_forall in Hall. destruct (Hall n Hn) as [Hcat ->].
  apply Hkeys in Hcat as [name ->]. done.
Qed.

(** X17. After a normal return on a non-empty list, the nodes agree with the
    estimators left in the instance: node [i] has the i-th label of the
    fitted [KMeans] as category and the first three entries of the i-th
    row of the fitted [UMAP] as coordinates. *)
Theorem nodes_match_handles notes self s g self' s' t :
  notes <> [] ->
  run env (process_notes notes self) s = ((Ok g, self'), s', t) ->
  exists labels coords_3d,
    kmeans self' = Some {| km_params := kmeans_config self;
                           km_labels_ := Some labels |}
    /\ umap_reducer self' = Some {| um_params := umap_config notes;
                                   um_embedding_ := Some coords_3d |}
    /\ forall i n, nodes g !! i = Some n ->
         labels !! i = Some (category n)
         /\ exists row,
              coords_3d !! i = Some row
              /\ row !! 0%nat = Some (x n) /\ row !! 1%nat = Some (y n)
              /\ row !! 2%nat = Some (z n).
Proof.
  intros Hne Hrun.
  destruct (returned_names _ _ _ _ _ _ _ Hne Hrun)
    as (labels & coords_3d & Hkm & Hum & Hnodes & _).
  exists labels, coords_3d. do 2 (split; [done |]).
  intros i n Hi. by apply (nodes_from_lookup _ _ _ _ _ _ Hnodes i n).
Qed.

(** X18. If [KMeans] returned exactly one label per note, the clusters named
    in a result are exactly the clusters that some node belongs to: no
    name is made for a cluster without notes. *)
Theorem named_clusters_are_used notes self s g self' s' t labels :
  run env (process_notes notes self) s = ((Ok g, self'), s', t) ->
  kmeans self' = Some {| km_params := kmeans_config self;
                         km_labels_ := Some labels |} ->
  length labels = length notes ->
  forall c, is_Some (cluster_names g !! c) <-> c ∈ assignments g.
Proof.
  intros Hrun Hkm Hlen c. destruct (decide (notes = [])) as [-> | Hne].
  { injection Hrun as <- _ _ _. unfold assignments.
    cbn [cluster_names nodes map]. rewrite lookup_empty. split.
    - by intros [? ?].
    - by intros ?%elem_of_nil. }
  destruct (returned_names _ _ _ _ _ _ _ Hne Hrun)
    as (labels' & coords_3d & Hkm' & _ & Hnodes & Hkeys & _).
  rewrite Hkm in Hkm'. injection Hkm' as <-. rewrite Hkeys.
  assert (Hsame : assignments g = labels); [| by rewrite Hsame].
  apply list_eq_same_length with (length notes); [done | |].
  - unfold assignments.
    destruct (nodes_from_Ok _ _ _ _ _ _ Hnodes) as (_ & Hlabel & _ & _).
    by rewrite length_map, <- (length_map label), Hlabel.
  - intros i c1 c2 _ H1 H2. unfold assignments in H1.
    rewrite list_lookup_fmap in H1.
    destruct (nodes g !! i) as [n |] eqn:Hn; [| done]. injection H1 as <-.
    destruct (nodes_from_lookup _ _ _ _ _ _ Hnodes i n Hn) as [Hc _].
    cbn in Hc. congruence.
Qed.

(** ** Calls that are not made *)

(** X19. When the embedder, [KMeans] or [UMAP] raises, [process_notes] raises
    the same exception at once: the system is left as it was and no
    request is sent to the language model. *)
Theorem failed_stage_sends_no_request notes self s e :
  stage_failure env self notes = Some e ->
  exists self' t,
    run env (process_notes notes self) s = ((Raise e, self'), s, t)
    /\ chat_answers t = []
    /\ (length t <= 3)%nat.
Proof.
  unfold stage_failure. destruct notes as [| note rest]; [done |].
  rewrite run_process_notes.
  destruct (model_encode env _ _) as [embeddings | e1];
    [| intros [= <-]; cbn; eauto 10].
  destruct (sklearn_fit_predict env _ _) as [labels | e1];
    [| intros [= <-]; cbn; eauto 10].
  destruct (umap_fit env _ _) as [coords_3d | e1]; [done |].
  intros [= <-]. cbn. eauto 10.
Qed.

Lemma sampling_ok_name_cluster labels notes names c self s :
  forallb sampling_ok
    (run env (name_cluster labels notes names c self) s).2 = true.
Proof.
  unfold name_cluster, request_title. unfold_method.
  destruct (cluster_notes_from labels c 0 notes) as [cn | e];
    cbn [run pbind]; [| done].
  destruct (Nat.ltb (Nat.min 3 (length cn)) (length cn)) eqn:Hlt;
    cbn [run pbind handle fst snd].
  all: destruct (groq_client self) as [client |];
    cbn [run pbind handle fst snd world fs].
  all: try (destruct (chat_create env client _ _) as [[content | e] w2];
    cbn [run pbind handle fst snd world fs]).
  all: try (destruct (title_of_content content) as [name | e];
    cbn [run pbind handle fst snd world fs]).
  all: cbn [forallb sampling_ok andb]; try done.
  all: apply Nat.ltb_lt in Hlt; rewrite ?andb_true_r;
    apply andb_true_iff; split;
    [apply Nat.eqb_eq | apply Nat.ltb_lt]; lia.
Qed.

Lemma sampling_ok_loop labels notes self cs names s :
  forallb sampling_ok
    (run env (for_each cs (name_cluster labels notes) names self) s).2 = true.
Proof.
  revert names self s. induction cs as [| c cs IH]; intros names self s;
    [done |].
  cbn [for_each]. unfold mbind, M_bind. rewrite run_bind.
  pose proof (sampling_ok_name_cluster labels notes names c self s) as H1.
  destruct (run env (name_cluster labels notes names c self) s)
    as [[[r1 self1] s1] t1].
  cbn [snd] in H1. destruct r1 as [names1 | e]; [| done].
  specialize (IH names1 self1 s1).
  destruct (run env (for_each cs _ names1 self1) s1) as [[[r2 self2] s2] t2].
  cbn [snd] in *. by rewrite forallb_app, H1, IH.
Qed.

Lemma sampling_ok_process_notes notes self s :
  forallb sampling_ok (run env (process_notes notes self) s).2 = true.
Proof.
  destruct notes as [| note rest]; [done |].
  rewrite run_process_notes.
  destruct (model_encode env _ _) as [embeddings | e]; [| done].
  destruct (sklearn_fit_predict env _ _) as [labels | e]; [| done].
  destruct (umap_fit env _ _) as [coords_3d | e]; [| done].
  cbv zeta.
  match goal with |- context [run env (_name_clusters ?l ?n ?r) s] =>
    assert (Hn : forallb sampling_ok (run env (_name_clusters l n r) s).2
                 = true);
    [| destruct (run env (_name_clusters l n r) s) as [[[rn self5] s5] tn] ]
  end.
  - unfold _name_clusters. unfold_method. cbn [pbind].
    cbn [groq_client with_umap_reducer with_kmeans].
    destruct (groq_client self); [apply sampling_ok_loop | done].
  - cbn [snd] in *. cbn [app forallb sampling_ok andb]. done.
Qed.

Lemma join_lists_each (f : str -> str) (sample : list str) note :
  note ∈ sample ->
  exists pre post, join [LF] (map f sample) = pre ++ f note ++ post.
Proof.
  induction sample as [| n1 rest IH]; [by intros ?%elem_of_nil |].
  intros [-> | Hin]%elem_of_cons.
  - destruct rest as [| n2 rest].
    + exists [], []. cbn. by rewrite app_nil_r.
    + exists [], ([LF] ++ join [LF] (map f (n2 :: rest))). done.
  - destruct (IH Hin) as (pre & post & Hjoin).
    destruct rest as [| n2 rest]; [by apply elem_of_nil in Hin |].
    exists (f n1 ++ [LF] ++ pre), post.
    change (join [LF] (map f (n1 :: n2 :: rest)))
      with (f n1 ++ [LF] ++ join [LF] (map f (n2 :: rest))).
    rewrite Hjoin. by rewrite <- !app_assoc.
Qed.

Lemma make_prompt_lists_each sample note :
  note ∈ sample ->
  exists pre post, make_prompt sample = pre ++ (lit "- " ++ note) ++ post.
Proof.
  intros Hin.
  destruct (join_lists_each (fun n => lit "- " ++ n) sample note Hin)
    as (pre & post & Hjoin).
  pose proof (f_equal
    (fun notes_list =>
       lit "Generate a 2-word topic title for these notes:" ++ [LF]
       ++ notes_list ++ [LF; LF] ++ lit "Return ONLY the 2-word title.")
    Hjoin) as Hprompt.
  cbv beta in Hprompt.
  exists (lit "Generate a 2-word topic title for these notes:" ++ [LF] ++ pre),
    (post ++ [LF; LF] ++ lit "Return ONLY the 2-word title.").
  etrans; [exact Hprompt |]. by rewrite <- !app_assoc.
Qed.

Lemma run_name_cluster_block labels notes names c self client s cn :
  groq_client self = Some client ->
  cluster_notes_from labels c 0 notes = Ok cn ->
  prompt_block client cn
    (run env (name_cluster labels notes names c self) s).2.
Proof.
  intros Hclient Hcn. unfold name_cluster, request_title. unfold_method.
  rewrite Hcn. cbn [run pbind].
  destruct (Nat.ltb_spec (Nat.min 3 (length cn)) (length cn)) as [Hlt | Hge].
  - assert (Hk : Nat.min 3 (length cn) = 3%nat) by lia. rewrite Hk.
    cbn [run pbind handle fst snd]. rewrite Hclient.
    cbn [run pbind handle fst snd world fs].
    destruct (chat_create env client _ _) as [[content | e] w2];
      cbn [run pbind handle fst snd world fs];
      [destruct (title_of_content content) as [name | e] |];
      cbn [run pbind snd]; eexists; right; (split; [lia |]);
      eexists; reflexivity.
  - cbn [run pbind handle fst snd]. rewrite Hclient.
    cbn [run pbind handle fst snd world fs].
    destruct (chat_create env client _ _) as [[content | e] w2];
      cbn [run pbind handle fst snd world fs];
      [destruct (title_of_content content) as [name | e] |];
      cbn [run pbind snd]; eexists; left; (split; [lia |]); reflexivity.
Qed.

Lemma run_name_loop_blocks labels notes self client cs names s :
  groq_client self = Some client ->
  (forall c, is_ok (cluster_notes_from labels c 0 notes) = true) ->
  exists blocks,
    (run env (for_each cs (name_cluster labels notes) names self) s).2
    = concat blocks
    /\ Forall2 (fun c block =>
                  exists cn,
                    cluster_notes_from labels c 0 notes = Ok cn
                    /\ prompt_block client cn block) cs blocks.
Proof.
  intros Hclient Hcover. revert names s.
  induction cs as [| c cs IH]; intros names s.
  { exists []. split; [done | constructor]. }
  cbn [for_each]. unfold mbind, M_bind. rewrite run_bind.
  specialize (Hcover c) as Hc.
  destruct (cluster_notes_from labels c 0 notes) as [cn | e] eqn:Hcn;
    [| done].
  pose proof (run_name_cluster labels notes names c self s) as H1.
  pose proof (run_name_cluster_block labels notes names c self client s cn
                Hclient Hcn) as Hblock.
  destruct (run env (name_cluster labels notes names c self) s)
    as [[[r1 self1] s1] t1].
  cbn [snd] in Hblock. destruct H1 as (-> & _ & H1).
  rewrite Hcn, Hclient in H1. destruct H1 as (a & _ & ->).
  destruct (IH (<[c := name_of_answer c a]> names) s1)
    as (blocks & Htrace & Hall).
  destruct (run env (for_each cs _ _ self) s1) as [[[r2 self2] s2] t2].
  cbn [snd] in *. exists (t1 :: blocks). split.
  - cbn [concat]. by rewrite Htrace.
  - constructor; [| done]. by exists cn.
Qed.

(** X13. In every run of [process_notes], [random.sample] is asked only
    for three notes out of more than three.  When the run returns with a
    client present, the calls that follow the three pipeline calls are,
    for each distinct label of the fitted [KMeans] in ascending order, the
    block of that cluster: for a cluster of at most three notes a single
    request whose prompt is made of all its notes as they are; for a
    larger one a call to [random.sample] on its notes for three of them
    and a request whose prompt is made of the sample returned.  A prompt
    holds every note it is made of, on a line that starts with "- ". *)
Theorem sampling_only_above_three notes self s :
  let '((r, self'), s', t) := run env (process_notes notes self) s in
  forallb sampling_ok t = true
  /\ (forall client g,
        groq_client self = Some client -> r = Ok g -> notes <> [] ->
        exists labels blocks,
          kmeans self' = Some {| km_params := kmeans_config self;
                                 km_labels_ := Some labels |}
          /\ drop 3 t = concat blocks
          /\ Forall2 (fun c block =>
                        exists cn,
                          cluster_notes_from labels c 0 notes = Ok cn
                          /\ prompt_block client cn block)
                     (unique_clusters labels) blocks)
  /\ (forall sample note,
        note ∈ sample ->
        exists pre post,
          make_prompt sample = pre ++ (lit "- " ++ note) ++ post).
Proof.
  pose proof (sampling_ok_process_notes notes self s) as Hsampling.
  destruct (run env (process_notes notes self) s) as [[[r self'] s'] t] eqn:Hrun.
  cbn [snd] in Hsampling. split; [done |].
  split; [| apply make_prompt_lists_each].
  intros client g Hclient -> Hne.
  destruct (process_notes_returns _ _ _ _ _ _ _ Hne Hrun)
    as (embeddings & labels & coords_3d & names
        & He & Hk & Hu & Hnodes & _ & Hkm & _ & _).
  rewrite map_int_id in Hnodes.
  destruct (nodes_from_Ok _ _ _ _ _ _ Hnodes) as (_ & _ & Hlen & _).
  assert (Hcover : forall c,
            is_ok (cluster_notes_from labels c 0 notes) = true).
  { intros c. rewrite cluster_notes_from_is_ok.
    by apply bool_decide_eq_true. }
  destruct notes as [| note rest]; [done |].
  rewrite run_process_notes, He, Hk, Hu in Hrun. cbv zeta in Hrun.
  rewrite map_int_id in Hrun.
  match type of Hrun with
  | context [run env (_name_clusters labels ?n ?r0) s] =>
      destruct (run_name_loop_blocks labels n r0 client
                  (unique_clusters labels) ∅ s) as (blocks & Htrace & Hall);
      [by cbn | done |];
      assert (Hnamer : (run env (_name_clusters labels n r0) s).2
                       = concat blocks);
      [| destruct (run env (_name_clusters labels n r0) s)
           as [[[rn self5] s5] tn] ]
  end.
  { rewrite <- Htrace. unfold _name_clusters. unfold_method. cbn [pbind].
    cbn [groq_client with_umap_reducer with_kmeans]. by rewrite Hclient. }
  cbn [snd] in Hnamer. exists labels, blocks. split; [done |].
  split; [| done]. injection Hrun as _ _ _ <-. by cbn.
Qed.

End Properties.

(** * The properties on the concrete environment *)

Lemma fewer_notes_than_clusters_raises_witness :
  Demo.two_notes <> []
  /\ Z.of_nat (length Demo.two_notes) < n_clusters (Demo.renderer 5 None)
  /\ exists msg t,
       run Demo.online (process_notes Demo.two_notes (Demo.renderer 5 None))
           (Demo.start Demo.online Absent 0%nat)
       = ((Raise (ValueError msg),
           with_kmeans
             (Some {| km_params := kmeans_config (Demo.renderer 5 None);
                      km_labels_ := None |})
             (Demo.renderer 5 None)),
          Demo.start Demo.online Absent 0%nat, t).
Proof.
  split; [discriminate |]. split; [reflexivity |].
  apply (fewer_notes_than_clusters_raises Demo.online Demo.two_notes
           (Demo.renderer 5 None) (Demo.start Demo.online Absent 0%nat)
           [[1]; [1]]);
    [discriminate | reflexivity | reflexivity | reflexivity].
Defined.

Lemma process_notes_nodes_in_order_witness :
  Demo.four_notes <> []
  /\ run Demo.online (process_notes Demo.four_notes (Demo.renderer 3 (Some ())))
         (Demo.start Demo.online Absent 0%nat)
     = ((Ok Demo.four_galaxy, Demo.four_processed.1.1.2),
        Demo.four_processed.1.2, Demo.four_processed.2)
  /\ map id (nodes Demo.four_galaxy) = [0; 1; 2; 3]
  /\ map label (nodes Demo.four_galaxy) = Demo.four_notes.
Proof.
  split; [discriminate |]. split; [vm_compute; reflexivity |].
  destruct (process_notes_nodes_in_order Demo.online Demo.four_notes
              (Demo.renderer 3 (Some ())) (Demo.start Demo.online Absent 0%nat)
              Demo.four_galaxy Demo.four_processed.1.1.2
              Demo.four_processed.1.2 Demo.four_processed.2)
    as (_ & _ & Hid & _); [discriminate | vm_compute; reflexivity |].
  split; [exact Hid | reflexivity].
Defined.

Lemma categories_are_named_witness :
  run Demo.online (process_notes Demo.four_notes (Demo.renderer 3 (Some ())))
      (Demo.start Demo.online Absent 0%nat)
  = ((Ok Demo.four_galaxy, Demo.four_processed.1.1.2),
     Demo.four_processed.1.2, Demo.four_processed.2)
  /\ forall n, n ∈ nodes Demo.four_galaxy ->
       is_Some (cluster_names Demo.four_galaxy !! category n).
Proof.
  split; [vm_compute; reflexivity |].
  apply (categories_are_named Demo.online Demo.four_notes
           (Demo.renderer 3 (Some ())) (Demo.start Demo.online Absent 0%nat)
           Demo.four_galaxy Demo.four_processed.1.1.2
           Demo.four_processed.1.2 Demo.four_processed.2).
  vm_compute; reflexivity.
Defined.

(** The second call starts from the instance that the first call left,
    with its handles, from a world where the language model was already
    asked three times, and with an unreadable notes file. *)
Lemma process_notes_reproducible_witness :
  model (Demo.renderer 3 None) = model Demo.four_processed.1.1.2
  /\ n_clusters (Demo.renderer 3 None) = n_clusters Demo.four_processed.1.1.2
  /\ layout_of
       (run Demo.online (process_notes Demo.four_notes (Demo.renderer 3 None))
            (Demo.start Demo.online Absent 0%nat)).1.1.1
     = layout_of
         (run Demo.online
              (process_notes Demo.four_notes Demo.four_processed.1.1.2)
              (Demo.start Demo.online Garbled 3%nat)).1.1.1.
Proof.
  split; [reflexivity |]. split; [reflexivity |].
  apply (process_notes_reproducible Demo.online Demo.four_notes
           (Demo.renderer 3 None) Demo.four_processed.1.1.2
           (Demo.start Demo.online Absent 0%nat)
           (Demo.start Demo.online Garbled 3%nat));
    reflexivity.
Defined.

Lemma generic_names_without_credential_witness :
  credential_at_init Demo.offline default_model_name
                     (Demo.start Demo.offline Absent 0%nat) = None
  /\ run Demo.offline (__init__ default_model_name 3)
         (Demo.start Demo.offline Absent 0%nat)
     = (Ok (Demo.renderer 3 None), Demo.built_offline.1.2,
        Demo.built_offline.2)
  /\ groq_client (Demo.renderer 3 None) = None
  /\ forall requests s,
       let '((rs, self'), s', t) :=
         run Demo.offline (calls requests (Demo.renderer 3 None)) s in
       chat_answers t = [] /\ groq_client self' = None
       /\ Forall (fun r => forall g, r = Ok g -> all_generic g) rs.
Proof.
  split; [reflexivity |]. split; [vm_compute; reflexivity |].
  apply (generic_names_without_credential Demo.offline default_model_name 3
           (Demo.start Demo.offline Absent 0%nat) (Demo.renderer 3 None)
           Demo.built_offline.1.2 Demo.built_offline.2);
    [left; reflexivity | vm_compute; reflexivity].
Defined.

Lemma namer_failures_are_isolated_witness :
  groq_client (Demo.renderer 3 (Some ())) = Some ()
  /\ let '((r, self'), s', t) :=
       run Demo.online
           (process_notes Demo.four_notes (Demo.renderer 3 (Some ())))
           (Demo.start Demo.online Absent 0%nat) in
     is_ok r
     = is_ok (layout Demo.online (Demo.renderer 3 (Some ())) Demo.four_notes)
     /\ forall g, r = Ok g ->
          map label (nodes g) = Demo.four_notes
          /\ exists cs,
            Sorted Z.le cs /\ NoDup cs
            /\ (forall c, c ∈ cs <-> is_Some (cluster_names g !! c))
            /\ (forall n, n ∈ nodes g ->
                  category n ∈ cs
                  /\ cluster_names g !! category n = Some (cluster_label n))
            /\ length (chat_answers t) = length cs
            /\ forall i c a,
                 cs !! i = Some c -> chat_answers t !! i = Some a ->
                 cluster_names g !! c = Some (name_of_answer c a)
                 /\ (forall e, a = Raise e ->
                       cluster_names g !! c = Some (generic_name c)).
Proof.
  split; [reflexivity |].
  apply (namer_failures_are_isolated Demo.online Demo.four_notes
           (Demo.renderer 3 (Some ())) ()
           (Demo.start Demo.online Absent 0%nat)).
  reflexivity.
Defined.

(** The language model fails for cluster 2 of {0, 1, 2} only: clusters 0
    and 1 keep the titles it gave, cluster 2 gets its placeholder. *)
Example third_cluster_falls_back :
  cluster_names Demo.four_galaxy
  = {[ 0 := lit "Deep Space"; 1 := lit "Web Frameworks";
       2 := lit "Category 2" ]}
  /\ chat_answers Demo.four_processed.2
     = [Ok (lit "Deep Space"); Ok (lit "Web Frameworks");
        Raise (LibraryError (lit "Connection error."))].
Proof. split; vm_compute; reflexivity. Qed.

Lemma name_from_reply_witness :
  run Demo.online
      (name_cluster [0; 1; 2; 2] Demo.four_notes ∅ 0
                    (Demo.renderer 3 (Some ())))
      (Demo.start Demo.online Absent 0%nat)
  = Demo.first_named
  /\ chat_answers Demo.first_named.2 = [Ok (lit "Deep Space")]
  /\ Demo.first_named.1.1.1
     = Ok (<[0 := title_as_coded 0 (lit "Deep Space")]> ∅).
Proof.
  split; [vm_compute; reflexivity |]. split; [reflexivity |].
  apply (name_from_reply Demo.online [0; 1; 2; 2] Demo.four_notes ∅ 0
           (Demo.renderer 3 (Some ())) (Demo.start Demo.online Absent 0%nat)
           Demo.first_named.1.1.1 Demo.first_named.1.1.2
           Demo.first_named.1.2 Demo.first_named.2 (lit "Deep Space"));
    [vm_compute; reflexivity | reflexivity].
Defined.

(** C8, as stated, fails on an empty reply: read as the specification
    words it, the name would be the empty text, but the code stores the
    placeholder of the cluster. *)
Lemma blank_reply_gets_placeholder :
  let out :=
    run Demo.blank
        (name_cluster [0] [lit "a note"] ∅ 0 (Demo.renderer 5 (Some ())))
        (Demo.start Demo.blank Absent 0%nat) in
  chat_answers out.2 = [Ok []]
  /\ title_as_specified [] = []
  /\ out.1.1.1 = Ok {[ 0 := lit "Category 0" ]}
  /\ out.1.1.1 <> Ok {[ 0 := title_as_specified [] ]}.
Proof.
  cbv zeta. split; [reflexivity |]. split; [reflexivity |].
  split; [vm_compute; reflexivity |].
  vm_compute. intros H. discriminate H.
Qed.

(** The reply is stripped before its first line is taken: a reply that
    starts with an empty line still gives a title. *)
Example leading_blank_line :
  title_as_coded 0 (LF :: lit "Deep Space") = lit "Deep Space"
  /\ title_as_specified (LF :: lit "Deep Space") = [].
Proof. split; reflexivity. Qed.

(** C9, as stated, fails: the call leaves its fitted estimators in the
    instance, which had none before. *)
Lemma fitted_handles_stay_in_instance :
  let before := Demo.renderer 3 (Some ()) in
  let after :=
    (run Demo.online (process_notes Demo.four_notes before)
         (Demo.start Demo.online Absent 0%nat)).1.1.2 in
  kmeans before = None
  /\ umap_reducer before = None
  /\ kmeans after
     = Some {| km_params := kmeans_config before;
               km_labels_ := Some [0; 1; 2; 2] |}
  /\ umap_reducer after
     = Some {| um_params := umap_config Demo.four_notes;
               um_embedding_ :=
                 Some [[3; 4; 5]; [4; 5; 6]; [5; 6; 7]; [2; 3; 4]] |}
  /\ after <> before.
Proof.
  cbv zeta. split; [reflexivity |]. split; [reflexivity |].
  split; [vm_compute; reflexivity |]. split; [vm_compute; reflexivity |].
  vm_compute. intros H. discriminate H.
Qed.

(** Two notes are posted to an empty store, with the default five
    clusters: they are saved, processing raises, and the endpoint answers
    with an error while the file holds the two notes. *)
Lemma add_notes_saves_before_processing_witness :
  run Demo.online (load_notes (Demo.renderer 5 (Some ())))
      (Demo.start Demo.online Absent 0%nat)
  = ((Ok [], Demo.renderer 5 (Some ())), Demo.two_loaded.1.2,
     Demo.two_loaded.2)
  /\ run Demo.online (save_notes ([] ++ Demo.two_notes)
                                 (Demo.renderer 5 (Some ())))
         Demo.two_loaded.1.2
     = ((Ok (), Demo.renderer 5 (Some ())), Demo.two_saved.1.2,
        Demo.two_saved.2)
  /\ is_ok Demo.two_processed.1.1.1 = false
  /\ fs Demo.two_processed.1.2
     = Holds {| doc_notes := Some ([] ++ Demo.two_notes) |}
  /\ exists e,
       (run Demo.online (add_notes Demo.two_notes (Demo.renderer 5 (Some ())))
            (Demo.start Demo.online Absent 0%nat)).1.1.1
       = Raise (HTTPException 500 (lit "Error adding notes: " ++ str_of_exn e)).
Proof.
  split; [vm_compute; reflexivity |]. split; [vm_compute; reflexivity |].
  split; [reflexivity |].
  destruct (add_notes_saves_before_processing Demo.online Demo.two_notes
              (Demo.renderer 5 (Some ())) (Demo.start Demo.online Absent 0%nat)
              [] Demo.two_loaded.1.2 Demo.two_loaded.2
              Demo.two_saved.1.2 Demo.two_saved.2
              Demo.two_processed.1.1.1 Demo.two_processed.1.1.2
              Demo.two_processed.1.2 Demo.two_processed.2)
    as (_ & _ & Hfs & out & Hrun & Hout);
    [vm_compute; reflexivity .. |].
  split; [exact Hfs |].
  rewrite Hrun. cbn [fst]. revert Hout.
  change Demo.two_processed.1.1.1
    with (@Raise (Galaxy Z)
            (ValueError (lit "n_samples=2 should be >= n_clusters=5."))).
  intros ->. eexists. reflexivity.
Defined.

(** ** Storage and endpoints *)

Lemma save_then_load_witness :
  run Demo.online (save_notes ([] ++ Demo.two_notes)
                              (Demo.renderer 5 (Some ())))
      Demo.two_loaded.1.2
  = ((Ok (), Demo.renderer 5 (Some ())), Demo.two_saved.1.2,
     Demo.two_saved.2)
  /\ (run Demo.online (load_notes (Demo.renderer 3 None))
          (Demo.start Demo.online (fs Demo.two_saved.1.2) 7%nat)).1.1.1
     = Ok ([] ++ Demo.two_notes).
Proof.
  split; [vm_compute; reflexivity |].
  apply (save_then_load Demo.online ([] ++ Demo.two_notes)
           (Demo.renderer 5 (Some ())) Demo.two_loaded.1.2
           (Demo.renderer 5 (Some ())) Demo.two_saved.1.2 Demo.two_saved.2
           (Demo.renderer 3 None)
           (Demo.start Demo.online (fs Demo.two_saved.1.2) 7%nat));
    [vm_compute; reflexivity | reflexivity].
Defined.

Lemma save_notes_outcome_witness :
  let '((r, self1), s1, t) :=
    run Demo.read_only
        (save_notes Demo.two_notes (Demo.renderer 5 (Some ())))
        (Demo.start Demo.read_only Absent 0%nat) in
  self1 = Demo.renderer 5 (Some ())
  /\ match r with
     | Ok _ =>
         (mkdir Demo.read_only
                (world (Demo.start Demo.read_only Absent 0%nat))).1 = Ok ()
         /\ fs s1 = Holds {| doc_notes := Some Demo.two_notes |}
         /\ exists made, t = [Event MkdirDataDir made;
                              Event (WriteNotesFile Demo.two_notes) (Ok ())]
     | Raise e =>
         (mkdir Demo.read_only
                (world (Demo.start Demo.read_only Absent 0%nat))).1 = Raise e
         /\ t = [Event MkdirDataDir (Raise e)]
         /\ fs s1 = fs (Demo.start Demo.read_only Absent 0%nat)
         \/ (mkdir Demo.read_only
                   (world (Demo.start Demo.read_only Absent 0%nat))).1 = Ok ()
            /\ exists e0 made,
                 e = HTTPException 500 (lit "Error saving notes: "
                                         ++ str_of_exn e0)
                 /\ t = [Event MkdirDataDir made;
                         Event (WriteNotesFile Demo.two_notes) (Raise e0)]
     end.
Proof.
  exact (save_notes_outcome Demo.read_only Demo.two_notes
           (Demo.renderer 5 (Some ()))
           (Demo.start Demo.read_only Absent 0%nat)).
Defined.

(** On the disk that refuses, the two notes are not saved: the error
    carries the text of the refusal and the file stays absent. *)
Example refused_write_is_reported :
  Demo.two_refused.1.1.1
  = Raise (HTTPException 500 (lit "Error saving notes: Permission denied"))
  /\ fs Demo.two_refused.1.2 = Absent.
Proof. split; reflexivity. Qed.

Lemma add_notes_raises_http_500_witness :
  run Demo.online (add_notes Demo.two_notes (Demo.renderer 5 (Some ())))
      (Demo.start Demo.online Absent 0%nat)
  = ((Raise (HTTPException 500
               (lit "Error adding notes: n_samples=2 should be >= n_clusters=5.")),
      Demo.two_added.1.1.2), Demo.two_added.1.2, Demo.two_added.2)
  /\ exists cause,
       HTTPException 500
         (lit "Error adding notes: n_samples=2 should be >= n_clusters=5.")
       = HTTPException 500 (lit "Error adding notes: " ++ str_of_exn cause)
       /\ (run Demo.online
               (process_notes ([] ++ Demo.two_notes)
                              (Demo.renderer 5 (Some ())))
               Demo.two_saved.1.2).1.1.1 = Raise cause.
Proof.
  split; [vm_compute; reflexivity |].
  destruct (add_notes_raises_http_500 Demo.online Demo.two_notes
              (Demo.renderer 5 (Some ()))
              (Demo.start Demo.online Absent 0%nat)
              (HTTPException 500
                 (lit "Error adding notes: n_samples=2 should be >= n_clusters=5."))
              Demo.two_added.1.1.2 Demo.two_added.1.2 Demo.two_added.2)
    as (cause & He & [Hl | [_ [Hs | [_ Hp]]]]);
    [vm_compute; reflexivity | discriminate Hl | discriminate Hs |].
  exists cause. split; [exact He | exact Hp].
Defined.

Lemma add_notes_unreadable_store_witness :
  fs (Demo.start Demo.online Garbled 0%nat) = Garbled
  /\ exists detail t,
       run Demo.online (add_notes Demo.two_notes (Demo.renderer 3 (Some ())))
           (Demo.start Demo.online Garbled 0%nat)
       = ((Raise (HTTPException 500
                    (lit "Error adding notes: 500: Error loading notes: "
                     ++ detail)), Demo.renderer 3 (Some ())),
          Demo.start Demo.online Garbled 0%nat, t)
       /\ forallb is_storage_call t = true.
Proof.
  split; [reflexivity |].
  apply (add_notes_unreadable_store Demo.online Demo.two_notes
           (Demo.renderer 3 (Some ())) (Demo.start Demo.online Garbled 0%nat)).
  reflexivity.
Defined.

Lemma add_notes_response_witness :
  run Demo.online (add_notes Demo.four_notes (Demo.renderer 3 (Some ())))
      (Demo.start Demo.online Absent 0%nat)
  = Demo.four_added
  /\ is_ok Demo.four_added.1.1.1 = true
  /\ fs Demo.four_added.1.2
     = Holds {| doc_notes := Some ([] ++ Demo.four_notes) |}.
Proof.
  split; [vm_compute; reflexivity |]. split; [reflexivity |].
  destruct Demo.four_added.1.1.1 as [response |] eqn:Hr; [| discriminate Hr].
  destruct (add_notes_response Demo.online Demo.four_notes
              (Demo.renderer 3 (Some ())) (Demo.start Demo.online Absent 0%nat)
              response Demo.four_added.1.1.2 Demo.four_added.1.2
              Demo.four_added.2) as [Hfs _]; [| exact Hfs].
  rewrite <- Hr. vm_compute; reflexivity.
Defined.

Lemma get_nodes_empty_store_witness :
  fs (Demo.start Demo.online Absent 0%nat) <> Garbled
  /\ stored_notes (fs (Demo.start Demo.online Absent 0%nat)) = []
  /\ exists t,
       run Demo.online (Routes.get_nodes (Demo.renderer 5 (Some ())))
           (Demo.start Demo.online Absent 0%nat)
       = ((Ok {| nodes := []; cluster_names := ∅ |},
           Demo.renderer 5 (Some ())), Demo.start Demo.online Absent 0%nat, t)
       /\ forallb is_storage_call t = true.
Proof.
  split; [discriminate |]. split; [reflexivity |].
  apply (get_nodes_empty_store Demo.online (Demo.renderer 5 (Some ()))
           (Demo.start Demo.online Absent 0%nat));
    [discriminate | reflexivity].
Defined.

(** Two notes are in store and five clusters are asked for: the listing
    fails with the text of the [ValueError] and leaves the file alone. *)
Example listing_too_few_notes :
  Demo.two_listed.1.1.1
  = Raise (HTTPException 500
             (lit "Error processing nodes: n_samples=2 should be >= n_clusters=5."))
  /\ fs Demo.two_listed.1.2 = Holds {| doc_notes := Some Demo.two_notes |}.
Proof. split; reflexivity. Qed.

(** The listing is asked for later, when the language model has already
    been asked three times. *)
Lemma get_nodes_after_add_notes_witness :
  run Demo.online (add_notes Demo.four_notes (Demo.renderer 3 (Some ())))
      (Demo.start Demo.online Absent 0%nat)
  = Demo.four_added
  /\ is_ok Demo.four_added.1.1.1 = true
  /\ exists g self2 s3 t2,
       run Demo.online (Routes.get_nodes Demo.four_added.1.1.2)
           (Demo.start Demo.online (fs Demo.four_added.1.2) 3%nat)
       = ((Ok g, self2), s3, t2)
       /\ map category (nodes g) = [0; 1; 2; 2].
Proof.
  split; [vm_compute; reflexivity |]. split; [reflexivity |].
  destruct Demo.four_added.1.1.1 as [response |] eqn:Hr; [| discriminate Hr].
  destruct (get_nodes_after_add_notes Demo.online Demo.four_notes
              (Demo.renderer 3 (Some ())) (Demo.start Demo.online Absent 0%nat)
              response Demo.four_added.1.1.2 Demo.four_added.1.2
              Demo.four_added.2
              (Demo.start Demo.online (fs Demo.four_added.1.2) 3%nat))
    as (g & self2 & s3 & t2 & Hrun & _ & _ & Hcat & _);
    [rewrite <- Hr; vm_compute; reflexivity | reflexivity |].
  exists g, self2, s3, t2. split; [exact Hrun |].
  rewrite Hcat. injection Hr as <-. reflexivity.
Defined.

(** ** Clusters, names and nodes *)

Lemma every_note_in_one_cluster_witness :
  (length Demo.four_notes <= length [0; 1; 2; 2])%nat
  /\ exists groups,
       Forall2 (fun c grp =>
                  cluster_notes_from [0; 1; 2; 2] c 0 Demo.four_notes = Ok grp)
               (unique_clusters [0; 1; 2; 2]) groups
       /\ concat groups ≡ₚ Demo.four_notes.
Proof.
  split; [repeat constructor |].
  apply (every_note_in_one_cluster [0; 1; 2; 2] Demo.four_notes).
  repeat constructor.
Defined.

Lemma title_is_one_or_two_words_witness :
  title_of_content (lit "  Deep Space Exploration " ++ LF :: lit "is vast")
  = Ok (lit "Deep Space")
  /\ split (lit "Deep Space") = [lit "Deep"; lit "Space"]
  /\ lit "Deep Space" <> [].
Proof.
  split; [reflexivity |].
  destruct (title_is_one_or_two_words
              (lit "  Deep Space Exploration " ++ LF :: lit "is vast")
              (lit "Deep Space")) as (Hsplit & _ & _ & Hne); [reflexivity |].
  split; [exact Hsplit | exact Hne].
Defined.

Lemma cluster_names_are_not_empty_witness :
  run Demo.online (process_notes Demo.four_notes (Demo.renderer 3 (Some ())))
      (Demo.start Demo.online Absent 0%nat)
  = ((Ok Demo.four_galaxy, Demo.four_processed.1.1.2),
     Demo.four_processed.1.2, Demo.four_processed.2)
  /\ forall c name, cluster_names Demo.four_galaxy !! c = Some name ->
       name <> []
       /\ (name = generic_name c
           \/ exists content, title_of_content content = Ok name).
Proof.
  split; [vm_compute; reflexivity |].
  apply (cluster_names_are_not_empty Demo.online Demo.four_notes
           (Demo.renderer 3 (Some ())) (Demo.start Demo.online Absent 0%nat)
           Demo.four_galaxy Demo.four_processed.1.1.2
           Demo.four_processed.1.2 Demo.four_processed.2).
  vm_compute; reflexivity.
Defined.

Lemma node_labels_match_names_witness :
  run Demo.online (process_notes Demo.four_notes (Demo.renderer 3 (Some ())))
      (Demo.start Demo.online Absent 0%nat)
  = ((Ok Demo.four_galaxy, Demo.four_processed.1.1.2),
     Demo.four_processed.1.2, Demo.four_processed.2)
  /\ forall n, n ∈ nodes Demo.four_galaxy ->
       cluster_names Demo.four_galaxy !! category n = Some (cluster_label n).
Proof.
  split; [vm_compute; reflexivity |].
  apply (node_labels_match_names Demo.online Demo.four_notes
           (Demo.renderer 3 (Some ())) (Demo.start Demo.online Absent 0%nat)
           Demo.four_galaxy Demo.four_processed.1.1.2
           Demo.four_processed.1.2 Demo.four_processed.2).
  vm_compute; reflexivity.
Defined.

Lemma nodes_match_handles_witness :
  Demo.four_notes <> []
  /\ run Demo.online
         (process_notes Demo.four_notes (Demo.renderer 3 (Some ())))
         (Demo.start Demo.online Absent 0%nat)
     = ((Ok Demo.four_galaxy, Demo.four_processed.1.1.2),
        Demo.four_processed.1.2, Demo.four_processed.2)
  /\ exists labels coords_3d,
       kmeans Demo.four_processed.1.1.2
       = Some {| km_params := kmeans_config (Demo.renderer 3 (Some ()));
                 km_labels_ := Some labels |}
       /\ umap_reducer Demo.four_processed.1.1.2
          = Some {| um_params := umap_config Demo.four_notes;
                    um_embedding_ := Some coords_3d |}
       /\ forall i n, nodes Demo.four_galaxy !! i = Some n ->
            labels !! i = Some (category n)
            /\ exists row,
                 coords_3d !! i = Some row
                 /\ row !! 0%nat = Some (x n) /\ row !! 1%nat = Some (y n)
                 /\ row !! 2%nat = Some (z n).
Proof.
  split; [discriminate |]. split; [vm_compute; reflexivity |].
  apply (nodes_match_handles Demo.online Demo.four_notes
           (Demo.renderer 3 (Some ())) (Demo.start Demo.online Absent 0%nat)
           Demo.four_galaxy Demo.four_processed.1.1.2
           Demo.four_processed.1.2 Demo.four_processed.2);
    [discriminate | vm_compute; reflexivity].
Defined.

Lemma named_clusters_are_used_witness :
  run Demo.online (process_notes Demo.four_notes (Demo.renderer 3 (Some ())))
      (Demo.start Demo.online Absent 0%nat)
  = ((Ok Demo.four_galaxy, Demo.four_processed.1.1.2),
     Demo.four_processed.1.2, Demo.four_processed.2)
  /\ length [0; 1; 2; 2] = length Demo.four_notes
  /\ forall c, is_Some (cluster_names Demo.four_galaxy !! c)
               <-> c ∈ assignments Demo.four_galaxy.
Proof.
  split; [vm_compute; reflexivity |]. split; [reflexivity |].
  apply (named_clusters_are_used Demo.online Demo.four_notes
           (Demo.renderer 3 (Some ())) (Demo.start Demo.online Absent 0%nat)
           Demo.four_galaxy Demo.four_processed.1.1.2
           Demo.four_processed.1.2 Demo.four_processed.2 [0; 1; 2; 2]);
    [vm_compute; reflexivity | reflexivity | reflexivity].
Defined.

Lemma failed_stage_sends_no_request_witness :
  stage_failure Demo.online (Demo.renderer 5 (Some ())) Demo.two_notes
  = Some (ValueError (lit "n_samples=2 should be >= n_clusters=5."))
  /\ exists self' t,
       run Demo.online
           (process_notes Demo.two_notes (Demo.renderer 5 (Some ())))
           (Demo.start Demo.online Absent 0%nat)
       = ((Raise (ValueError (lit "n_samples=2 should be >= n_clusters=5.")),
           self'), Demo.start Demo.online Absent 0%nat, t)
       /\ chat_answers t = [] /\ (length t <= 3)%nat.
Proof.
  split; [reflexivity |].
  apply (failed_stage_sends_no_request Demo.online Demo.two_notes
           (Demo.renderer 5 (Some ())) (Demo.start Demo.online Absent 0%nat)).
  reflexivity.
Defined.

(** Five notes and two clusters: the notes of even length make a cluster
    of four, which is sampled, and the note of length three a cluster of
    its own, which goes to the prompt as it is. *)
Example five_notes_two_clusters :
  drop 3
    (run Demo.online
         (process_notes
            [lit "ab"; lit "abcd"; lit "abc"; lit "abcdef"; lit "abcdefgh"]
            (Demo.renderer 2 (Some ())))
         (Demo.start Demo.online Absent 0%nat)).2
  = [Event (RandomSample
              [lit "ab"; lit "abcd"; lit "abcdef"; lit "abcdefgh"] 3)
           [lit "ab"; lit "abcd"; lit "abcdef"];
     Event (ChatCompletionsCreate ()
              (title_request
                 (make_prompt [lit "ab"; lit "abcd"; lit "abcdef"])))
           (Ok (lit "Deep Space"));
     Event (ChatCompletionsCreate ()
              (title_request (make_prompt [lit "abc"])))
           (Ok (lit "Web Frameworks"))].
Proof. vm_compute. reflexivity. Qed.

(** The prompt of the three sampled notes, in full. *)
Example prompt_of_three_notes :
  make_prompt [lit "ab"; lit "abcd"; lit "abcdef"]
  = lit "Generate a 2-word topic title for these notes:" ++ [LF]
    ++ lit "- ab" ++ [LF] ++ lit "- abcd" ++ [LF] ++ lit "- abcdef"
    ++ [LF; LF] ++ lit "Return ONLY the 2-word title.".
Proof. reflexivity. Qed.

(** A second call on the instance left by the four notes, now with two
    notes for its three clusters: [fit_predict] raises, the new [KMeans]
    is stored unfitted and the [UMAP] fitted by the first call stays. *)
Example raising_call_keeps_previous_umap :
  let self := Demo.four_processed.1.1.2 in
  let again :=
    run Demo.online (process_notes Demo.two_notes self)
        Demo.four_processed.1.2 in
  again.1.1.1
  = Raise (ValueError (lit "n_samples=2 should be >= n_clusters=3."))
  /\ kmeans again.1.1.2
     = Some {| km_params := kmeans_config self; km_labels_ := None |}
  /\ umap_reducer again.1.1.2 = umap_reducer self
  /\ umap_reducer self
     = Some {| um_params := umap_config Demo.four_notes;
               um_embedding_ :=
                 Some [[3; 4; 5]; [4; 5; 6]; [5; 6; 7]; [2; 3; 4]] |}.
Proof. vm_compute. repeat split. Qed.
